(** * strapi_migrate: a shallow embedding and its verified properties

    The program under study is the single module [strapi_migrate.py]: it
    pages through the published entries of a source content API, looks each
    one up in a destination API by a configurable field, and creates or
    updates it there, collecting one report row per entry.

    The embedding follows the module function by function.  Python values
    that come out of [res.json()] are the type [value]; the two HTTP servers
    and the clock are the environment, given as functions; the program runs
    in a small monad that threads the list of HTTP exchanges made so far and
    the report file, and that can raise the exceptions the Python code can
    raise.  [print] calls are not modelled, except for the expressions they
    evaluate when these can raise. *)

From Stdlib Require Import String Ascii List ZArith QArith Bool Lia DecimalString.
Import ListNotations.
Set Warnings "-register-all".
Close Scope Q_scope.
Local Open Scope string_scope.
Local Open Scope list_scope.

(** ** Python values *)

(** What [json.loads] produces: [None], booleans, integers, floats (a finite
    float is the rational it denotes), strings, lists, and dictionaries with
    string keys.  A dictionary keeps its insertion order; it is an association
    list read from the front. *)
Inductive value : Type :=
| VNone
| VBool (b : bool)
| VInt (n : Z)
| VFloat (x : Q)
| VStr (s : string)
| VList (items : list value)
| VDict (items : list (string * value)).

Definition dict : Type := list (string * value).

(** [bool(v)]: the truth value Python gives to [v] in [if v] and [not v]. *)
Definition truthy (v : value) : bool :=
  match v with
  | VNone => false
  | VBool b => b
  | VInt n => negb (n =? 0)%Z
  | VFloat x => negb (Qnum x =? 0)%Z
  | VStr s => negb (s =? "")
  | VList [] => false
  | VList (_ :: _) => true
  | VDict [] => false
  | VDict (_ :: _) => true
  end.

(** [isinstance(v, dict)] *)
Definition is_dict (v : value) : bool :=
  match v with VDict _ => true | _ => false end.

Module Dict.

(** The binding of [k], if any. *)
Fixpoint lookup (k : string) (d : dict) : option value :=
  match d with
  | [] => None
  | (k', v) :: d' => if k =? k' then Some v else lookup k d'
  end.

(** [k in d] *)
Definition mem (k : string) (d : dict) : bool :=
  match lookup k d with Some _ => true | None => false end.

(** [d.get(k, default)] *)
Definition get_default (k : string) (default : value) (d : dict) : value :=
  match lookup k d with Some v => v | None => default end.

(** [d.get(k)] *)
Definition get (k : string) (d : dict) : value := get_default k VNone d.

(** [d[k] = v]: an existing key keeps its place, a new one goes last. *)
Fixpoint set (k : string) (v : value) (d : dict) : dict :=
  match d with
  | [] => [(k, v)]
  | (k', v') :: d' =>
      if k =? k' then (k, v) :: d' else (k', v') :: set k v d'
  end.

End Dict.

(** ** Exceptions and outcomes *)

(** The exceptions the module can meet.  [KeyError] carries the missing key
    ([data[0]] on a dictionary misses the key [0]). *)
Inductive exn : Type :=
| HTTPError (status : Z)             (* res.raise_for_status() *)
| RequestException (msg : string)    (* requests.get/put/post could not complete *)
| JSONDecodeError                    (* res.json() on a body that is not JSON *)
| KeyError (key : value)
| TypeError
| AttributeError.

(** How a computation ends.  [OutOfFuel] belongs to the embedding only: the
    pagination loop is [while True], and is run here for a bounded number of
    rounds. *)
Inductive outcome (A : Type) : Type :=
| Returned (a : A)
| Raised (e : exn)
| OutOfFuel.
Arguments Returned {A} a.
Arguments Raised {A} e.
Arguments OutOfFuel {A}.

(** Sequencing of computations that touch no state. *)
Definition and_then {A B} (m : outcome A) (k : A -> outcome B) : outcome B :=
  match m with
  | Returned a => k a
  | Raised e => Raised e
  | OutOfFuel => OutOfFuel
  end.

Declare Scope outcome_scope.
Delimit Scope outcome_scope with outcome.
Notation "'do' x <- m ; k" := (and_then m (fun x => k))
  (at level 10, x name, m at level 100, k at level 200) : outcome_scope.

(** [d[k]] *)
Definition subscript (k : string) (d : dict) : outcome value :=
  match Dict.lookup k d with
  | Some v => Returned v
  | None => Raised (KeyError (VStr k))
  end.

(** ** HTTP *)

(** The four requests the module sends.  Each stands for the call with the
    URL the module formats from these parts (see [url] below). *)
Inductive request : Type :=
| GET_source (collection : string) (page : nat)
| GET_dest (collection match_field : string) (match_value : value)
| PUT_dest (collection : string) (document_id : value) (json : value)
| POST_dest (collection : string) (json : value).

(** A server answers with a status code and a body ([None] when the body is
    not JSON), or the call itself fails. *)
Inductive reply : Type :=
| Response (status_code : Z) (body : option value)
| Unreachable (msg : string).

Record response : Type := { status_code : Z; body : option value }.

Definition exchange : Type := (request * reply)%type.

(** [res.raise_for_status()]: the [requests] library raises [HTTPError] for a
    status code from 400 to 599, and for no other. *)
Definition raise_for_status (res : response) : outcome unit :=
  if ((400 <=? status_code res) && (status_code res <? 600))%Z
  then Raised (HTTPError (status_code res))
  else Returned tt.

(** [res.json()] *)
Definition res_json (res : response) : outcome value :=
  match body res with
  | Some v => Returned v
  | None => Raised JSONDecodeError
  end.

(** [v.get(k, default)]: only a dictionary has the method. *)
Definition method_get (k : string) (default : value) (v : value) : outcome value :=
  match v with
  | VDict d => Returned (Dict.get_default k default d)
  | _ => Raised AttributeError
  end.

(** [res.json().get("data", [])] *)
Definition get_data (parsed : value) : outcome value :=
  method_get "data" (VList []) parsed.

(** [data[0]] for a truthy [data]: the first item of a list, the first
    character of a string; a dictionary from JSON has no key [0], and the
    other values cannot be subscripted. *)
Definition first_item (data : value) : outcome value :=
  match data with
  | VList (x :: _) => Returned x
  | VStr (String c _) => Returned (VStr (String c ""))
  | VDict _ => Raised (KeyError (VInt 0))
  | _ => Raised TypeError
  end.

(** The items [for entry in data] goes through. *)
Fixpoint characters (s : string) : list value :=
  match s with
  | EmptyString => []
  | String c s' => VStr (String c "") :: characters s'
  end.

Definition iterate (data : value) : outcome (list value) :=
  match data with
  | VList items => Returned items
  | VStr s => Returned (characters s)
  | VDict d => Returned (map (fun kv => VStr (fst kv)) d)
  | _ => Raised TypeError
  end.

(** [str(v)] as an f-string writes it, for the values whose text is short to
    state; the [repr] of floats, lists and dictionaries is not rendered. *)
Definition str (v : value) : option string :=
  match v with
  | VNone => Some "None"
  | VBool true => Some "True"
  | VBool false => Some "False"
  | VInt n => Some (NilZero.string_of_int (Z.to_int n))
  | VStr s => Some s
  | _ => None
  end.

(** ** The state of a run *)

(** A report row, [{"entry", "action", "error", "timestamp", "dry_run"}].
    The error column holds the empty string of lines 109 and 120 or the
    [str(e)] of line 133; it is kept as where the text comes from, the
    exception itself in the second case.  The text [str(e)] may be empty too:
    the two constructors tell apart the line that wrote the column, not two
    texts. *)
Inductive action : Type := created | updated | failed.

Inductive error_text : Type :=
| empty_text                 (* "" *)
| str_of (e : exn).          (* str(e) *)

Record report_row : Type := {
  row_entry : value;
  row_action : action;
  row_error : error_text;
  row_timestamp : string;
  row_dry_run : bool
}.

(** What a run has done so far: the HTTP exchanges in the order they were
    made, and the content of [migration_report.csv] if the run wrote it. *)
Record state : Type := {
  trace : list exchange;
  report_file : option (list report_row)
}.

Definition initial : state := {| trace := []; report_file := None |}.

(** Computations that can send requests, raise, and be caught. *)
Definition M (A : Type) : Type := state -> outcome A * state.

Definition ret {A} (a : A) : M A := fun st => (Returned a, st).

Definition bind {A B} (m : M A) (k : A -> M B) : M B :=
  fun st =>
    match m st with
    | (Returned a, st') => k a st'
    | (Raised e, st') => (Raised e, st')
    | (OutOfFuel, st') => (OutOfFuel, st')
    end.

Definition lift {A} (m : outcome A) : M A := fun st => (m, st).

(** [try: body / except Exception as e: handler(e)] *)
Definition try_except {A} (body : M A) (handler : exn -> M A) : M A :=
  fun st =>
    match body st with
    | (Raised e, st') => handler e st'
    | other => other
    end.

Declare Scope run_scope.
Delimit Scope run_scope with run.
Notation "x <- m ;; k" := (bind m (fun x => k))
  (at level 100, m at next level, right associativity) : run_scope.
Notation "m ;; k" := (bind m (fun _ => k))
  (at level 100, right associativity) : run_scope.

(** ** The module, function by function *)

Section Program.

(** The environment of a run: the two base URLs of [.strapi.env], the
    source server (what it answers for a page of a collection), the
    destination server (what it answers to a request, given everything
    that was exchanged before), and the clock (the time read for the
    n-th report row). *)
Variable SOURCE_API DEST_API : string.
Variable source : string -> nat -> reply.
Variable dest : list exchange -> request -> reply.
Variable clock : nat -> string.

(** The URL of each request (lines 35, 72, 103, 114). *)
Definition url (req : request) : option string :=
  match req with
  | GET_source collection page =>
      Some (SOURCE_API ++ "/api/" ++ collection
            ++ "?pagination[pageSize]=100&pagination[page]="
            ++ NilZero.string_of_uint (Nat.to_uint page)
            ++ "&filters[publishedAt][$notNull]=true&populate=*")%string
  | GET_dest collection match_field match_value =>
      option_map
        (fun v => DEST_API ++ "/api/" ++ collection
                  ++ "?filters[" ++ match_field ++ "][$eq]=" ++ v)%string
        (str match_value)
  | PUT_dest collection update_doc_id _ =>
      option_map (fun d => DEST_API ++ "/api/" ++ collection ++ "/" ++ d)%string
                 (str update_doc_id)
  | POST_dest collection _ => Some (DEST_API ++ "/api/" ++ collection)%string
  end.

(** [requests.get], [requests.put], [requests.post]: the request goes to
    its server, the exchange is recorded, and a failure to get any
    response raises. *)
Definition answer (history : list exchange) (req : request) : reply :=
  match req with
  | GET_source collection page => source collection page
  | _ => dest history req
  end.

Definition requests_call (req : request) : M response :=
  fun st =>
    let r := answer (trace st) req in
    let st' := {| trace := trace st ++ [(req, r)];
                  report_file := report_file st |} in
    match r with
    | Response s b => (Returned {| status_code := s; body := b |}, st')
    | Unreachable msg => (Raised (RequestException msg), st')
    end.

(** *** [fetch_entries] (lines 31-58) *)

(** One round of [for entry in data] (lines 45-56).  [attributes] is the
    record itself or its nested mapping; either way the record's [id] is
    written into it before the match field is read. *)
Definition fetch_record (match_field : string) (entry : value)
    (entries : list dict) : outcome (list dict) :=
  match entry with
  | VDict e =>
      let attributes :=
        if Dict.mem "attributes" e then Dict.get "attributes" e else VDict e in
      match attributes with
      | VDict a =>
          if negb (truthy attributes) then Returned entries
          else
            (do id <- subscript "id" e;
             let a1 := Dict.set "id" id a in
             let match_value := Dict.get match_field a1 in
             let a2 := Dict.set "match_field" match_value a1 in
             if negb (truthy match_value) then Returned entries
             else Returned (entries ++ [a2]))%outcome
      | _ => Returned entries
      end
  | VStr _ | VList _ => Raised AttributeError
  | _ => Raised TypeError
  end.

Fixpoint fetch_records (match_field : string) (data : list value)
    (entries : list dict) : outcome (list dict) :=
  match data with
  | [] => Returned entries
  | entry :: rest =>
      (do entries' <- fetch_record match_field entry entries;
       fetch_records match_field rest entries')%outcome
  end.

(** The [while True] loop, for at most [fuel] pages. *)
Fixpoint fetch_pages (fuel : nat) (collection match_field : string)
    (page : nat) (entries : list dict) : M (list dict) :=
  match fuel with
  | O => lift OutOfFuel
  | S fuel' =>
      (res <- requests_call (GET_source collection page) ;;
       lift (raise_for_status res) ;;
       parsed <- lift (res_json res) ;;
       data <- lift (get_data parsed) ;;
       (if truthy data then lift (first_item data) else ret VNone) ;;
       if negb (truthy data) then ret entries
       else
         items <- lift (iterate data) ;;
         entries' <- lift (fetch_records match_field items entries) ;;
         fetch_pages fuel' collection match_field (S page) entries')%run
  end.

Definition fetch_entries (fuel : nat) (collection match_field : string)
    : M (list dict) :=
  fetch_pages fuel collection match_field 1 [].

(** *** [sanitize_payload] (lines 60-69) *)
Definition sanitize_payload (entry : dict) : outcome dict :=
  (do name <- subscript "agendaFormatName" entry;
   do order <- subscript "agendaFormatOrder" entry;
   Returned [("agendaFormatName", name); ("agendaFormatOrder", order)])%outcome.

(** *** [find_existing_entry] (lines 71-83) *)
Definition find_existing_entry (collection match_field : string)
    (match_value : value) : M value :=
  (res <- requests_call (GET_dest collection match_field match_value) ;;
   lift (raise_for_status res) ;;
   parsed <- lift (res_json res) ;;
   data <- lift (get_data parsed) ;;
   if truthy data then
     first <- lift (first_item data) ;;
     if is_dict first then
       attributes <- lift (method_get "attributes" (VDict []) first) ;;
       document_id <- lift (method_get "documentId" VNone attributes) ;;
       ret (VDict [("documentId", document_id)])
     else ret VNone
   else ret VNone)%run.

(** *** [migrate_collection] (lines 85-147) *)

(** The body of the [try] up to the assignment of [action]
    (lines 99-120). *)
Definition upsert (collection : string) (dry_run : bool)
    (existing_entry update_doc_id post_payload : value) : M action :=
  (if truthy existing_entry then
     (if negb dry_run then
        res <- requests_call (PUT_dest collection update_doc_id post_payload) ;;
        lift (raise_for_status res)
      else ret tt) ;;
     ret updated
   else
     (if negb dry_run then
        res <- requests_call (POST_dest collection post_payload) ;;
        lift (raise_for_status res)
      else ret tt) ;;
     ret created)%run.

Definition row (match_field : string) (entry : dict) (act : action)
    (err : error_text) (dry_run : bool) (report_rows : list report_row)
    : report_row :=
  {| row_entry := Dict.get match_field entry;
     row_action := act;
     row_error := err;
     row_timestamp := clock (length report_rows);
     row_dry_run := dry_run |}.

(** One round of [for entry in entries] (lines 91-140). *)
Definition migrate_entry (collection match_field : string) (dry_run : bool)
    (entry : dict) (report_rows : list report_row) : M (list report_row) :=
  (let match_value := Dict.get match_field entry in
   payload <- lift (sanitize_payload entry) ;;
   let post_payload := VDict [("data", VDict payload)] in
   existing_entry <- find_existing_entry collection match_field match_value ;;
   update_doc_id <- lift (if truthy existing_entry
                          then method_get "documentId" VNone existing_entry
                          else Returned VNone) ;;
   try_except
     (act <- upsert collection dry_run existing_entry update_doc_id post_payload ;;
      ret (report_rows ++ [row match_field entry act empty_text dry_run report_rows]))
     (fun e =>
      ret (report_rows ++ [row match_field entry failed (str_of e) dry_run report_rows])))%run.

Fixpoint migrate_entries (collection match_field : string) (dry_run : bool)
    (entries : list dict) (report_rows : list report_row)
    : M (list report_row) :=
  match entries with
  | [] => ret report_rows
  | entry :: rest =>
      (report_rows' <- migrate_entry collection match_field dry_run entry report_rows ;;
       migrate_entries collection match_field dry_run rest report_rows')%run
  end.

(** [with open(REPORT_FILE, "w") ...] (lines 142-146), for a write that
    completes: the rows become the content of the report file.  The module
    writes row by row, and a [writerow] that raises (a text the encoding of
    the file cannot take, a full disk) would leave the header and the rows
    before it; such a write is not modelled.  What is stated below of the
    content of the file is stated of runs that return, or holds of the rows
    however many of them reached the file. *)
Definition write_report (report_rows : list report_row) : M unit :=
  fun st => (Returned tt, {| trace := trace st; report_file := Some report_rows |}).

Definition migrate_collection (fuel : nat) (collection match_field : string)
    (dry_run : bool) : M unit :=
  (entries <- fetch_entries fuel collection match_field ;;
   report_rows <- migrate_entries collection match_field dry_run entries [] ;;
   write_report report_rows)%run.

End Program.

(** ** Notions used in the statements *)

(** The requests that only read: the source pages and the destination
    lookup.  [PUT] and [POST] are the writes. *)
Definition is_get (req : request) : bool :=
  match req with
  | GET_source _ _ | GET_dest _ _ _ => true
  | PUT_dest _ _ _ | POST_dest _ _ => false
  end.

(** The statuses on which [raise_for_status] raises. *)
Definition error_status (s : Z) : bool := ((400 <=? s) && (s <? 600))%Z.

(** [keeps I m]: running [m] from a state where [I] holds ends, however it
    ends, in a state where [I] holds. *)
Definition keeps {A} (I : state -> Prop) (m : M A) : Prop :=
  forall st, I st -> I (snd (m st)).

(** The value the fetcher reads as the match field of a raw record
    (lines 45-50): the field of the record's attribute mapping, after the
    record's [id] was written into that mapping.  A record without an
    attribute mapping has none. *)
Definition match_value_of (match_field : string) (entry : value) : value :=
  match entry with
  | VDict e =>
      match (if Dict.mem "attributes" e then Dict.get "attributes" e else VDict e) with
      | VDict a => Dict.get match_field (Dict.set "id" (Dict.get "id" e) a)
      | _ => VNone
      end
  | _ => VNone
  end.

(** A raw record as the source API sends it: a mapping that carries an
    [id]. *)
Definition is_record (entry : value) : bool :=
  match entry with
  | VDict e => Dict.mem "id" e
  | _ => false
  end.

(** What one round of the [while] loop reads from the reply to its request
    (lines 37-56): [None] when [data] is empty, and otherwise the list
    [entries] as the records of the page extend it. *)
Definition fetch_page (match_field : string) (r : reply) (entries : list dict)
    : outcome (option (list dict)) :=
  match r with
  | Unreachable msg => Raised (RequestException msg)
  | Response s b =>
      let res := {| status_code := s; body := b |} in
      (do _ <- raise_for_status res;
       do parsed <- res_json res;
       do data <- get_data parsed;
       do _ <- (if truthy data then first_item data else Returned VNone);
       if negb (truthy data) then Returned None
       else
         (do items <- iterate data;
          do entries' <- fetch_records match_field items entries;
          Returned (Some entries')))%outcome
  end.

(** A page seen on its own: the entries it contributes. *)
Definition page_view (match_field : string) (r : reply)
    : outcome (option (list dict)) :=
  fetch_page match_field r [].

(** The exchanges of the first [n] pages of a collection. *)
Definition pages (source : string -> nat -> reply) (collection : string)
    (first n : nat) : list exchange :=
  map (fun k => (GET_source collection k, source collection k)) (seq first n).

Definition sent (st : state) (x : list exchange) : state :=
  {| trace := trace st ++ x; report_file := report_file st |}.



(** What the fetcher guarantees of an entry it returns: a truthy match value,
    also stored under ["match_field"]. *)
Definition has_match_value (match_field : string) (a : dict) : Prop :=
  truthy (Dict.get match_field a) = true /\
  Dict.get "match_field" a = Dict.get match_field a.

(** ** The executor, one entry at a time *)

(** What the lookup makes of the destination's reply (lines 74-83). *)
Definition existing_of (r : reply) : outcome value :=
  match r with
  | Unreachable msg => Raised (RequestException msg)
  | Response s b =>
      let res := {| status_code := s; body := b |} in
      (do _ <- raise_for_status res;
       do parsed <- res_json res;
       do data <- get_data parsed;
       if truthy data then
         (do first <- first_item data;
          if is_dict first then
            (do attributes <- method_get "attributes" (VDict []) first;
             do document_id <- method_get "documentId" VNone attributes;
             Returned (VDict [("documentId", document_id)]))
          else Returned VNone)
       else Returned VNone)%outcome
  end.

(** The document id the executor takes from the lookup's result (line 96). *)
Definition doc_id_of (existing_entry : value) : value :=
  match existing_entry with
  | VDict d => Dict.get "documentId" d
  | _ => VNone
  end.

(** The body sent with a write (line 94). *)
Definition post_payload_of (payload : dict) : value :=
  VDict [("data", VDict payload)].

(** The write the executor sends for an entry when it sends one
    (lines 103-104 and 114-115). *)
Definition write_request (collection : string) (existing_entry : value)
    (payload : dict) : request :=
  if truthy existing_entry
  then PUT_dest collection (doc_id_of existing_entry) (post_payload_of payload)
  else POST_dest collection (post_payload_of payload).

(** The action a successful round records (lines 108 and 119). *)
Definition prospective (existing_entry : value) : action :=
  if truthy existing_entry then updated else created.

(** Whether a write got through: the call fails when there is no response,
    and [raise_for_status] raises on an error status. *)
Definition delivered (r : reply) : outcome unit :=
  match r with
  | Unreachable msg => Raised (RequestException msg)
  | Response s b => raise_for_status {| status_code := s; body := b |}
  end.

(** The lookup request of an entry (line 95). *)
Definition lookup_request (collection match_field : string) (entry : dict)
    : request :=
  GET_dest collection match_field (Dict.get match_field entry).

(** An entry without one of the two payload fields (lines 63-64). *)
Definition lacks_payload_field (entry : dict) : bool :=
  negb (Dict.mem "agendaFormatName" entry) || negb (Dict.mem "agendaFormatOrder" entry).

(** A destination record without [attributes.documentId]: it has no
    ["attributes"], or its ["attributes"] is a mapping without
    ["documentId"]. *)
Definition lacks_document_id (first : dict) : bool :=
  match Dict.lookup "attributes" first with
  | None => true
  | Some (VDict a) => negb (Dict.mem "documentId" a)
  | Some _ => false
  end.

(** A trace in which only reads were sent. *)
Definition only_reads (tr : list exchange) : Prop :=
  Forall (fun x => is_get (fst x) = true) tr.

(** The writes of a trace. *)
Definition writes (tr : list exchange) : list exchange :=
  filter (fun x => negb (is_get (fst x))) tr.

(** A trace in which no read was answered with an error status. *)
Definition quiet (tr : list exchange) : Prop :=
  forall req s b,
    In (req, Response s b) tr -> is_get req = true -> error_status s = false.

(** The outcome a run must have when a read was answered with an error
    status: the [HTTPError] of that status, raised to the top. *)
Definition reads_raise {A} (out : outcome A) (tr : list exchange) : Prop :=
  forall req s b,
    In (req, Response s b) tr -> is_get req = true -> error_status s = true ->
    out = Raised (HTTPError s).

(** ** Concrete runs *)

(** The scenario of the module's use: a collection ["agenda"] matched on
    ["title"], one source page with the entries "A" and "B". *)
Module Scenario.

Definition record (id : Z) (name : string) (order : Z) (title : value) : value :=
  VDict [("id", VInt id); ("agendaFormatName", VStr name);
         ("agendaFormatOrder", VInt order); ("title", title)].

Definition keynote : value := record 1 "Keynote" 1 (VStr "A").
Definition workshop : value := record 2 "Workshop" 2 (VStr "B").
Definition untitled : value := record 3 "Panel" 3 (VStr "").

(** A record without the two payload fields. *)
Definition bare : value := VDict [("id", VInt 4); ("title", VStr "C")].

(** The entries the fetcher makes of [keynote], [workshop] and [bare]. *)
Definition entry_A : dict :=
  [("id", VInt 1); ("agendaFormatName", VStr "Keynote");
   ("agendaFormatOrder", VInt 1); ("title", VStr "A"); ("match_field", VStr "A")].
Definition entry_B : dict :=
  [("id", VInt 2); ("agendaFormatName", VStr "Workshop");
   ("agendaFormatOrder", VInt 2); ("title", VStr "B"); ("match_field", VStr "B")].
Definition entry_C : dict :=
  [("id", VInt 4); ("title", VStr "C"); ("match_field", VStr "C")].

Definition payload_A : dict :=
  [("agendaFormatName", VStr "Keynote"); ("agendaFormatOrder", VInt 1)].

Definition ok (parsed : value) : reply := Response 200 (Some parsed).
Definition data (items : list value) : reply := ok (VDict [("data", VList items)]).

(** Sources: the first page holds the given records, the others are empty. *)
Definition one_page (records : list value) (collection : string) (page : nat)
    : reply :=
  match page with
  | 1 => data records
  | _ => data []
  end.

(** A source that answers 500 on the second page. *)
Definition failing_source (collection : string) (page : nat) : reply :=
  match page with
  | 1 => data [keynote]
  | _ => Response 500 None
  end.

(** A source that answers the first page with status 300 and an empty JSON
    object. *)
Definition redirecting_source (collection : string) (page : nat) : reply :=
  Response 300 (Some (VDict [])).

(** Destinations.  Each answers the lookup with [found] and a write with
    [written]. *)
Definition destination (found written : reply) (history : list exchange)
    (req : request) : reply :=
  match req with
  | GET_dest _ _ _ => found
  | _ => written
  end.

Definition no_match : reply := data [].
Definition match_doc123 : reply :=
  data [VDict [("id", VInt 9); ("attributes", VDict [("documentId", VStr "doc123")])]].
Definition match_without_document_id : reply :=
  data [VDict [("id", VInt 9); ("documentId", VStr "doc123"); ("title", VStr "A")]].
Definition match_with_null_attributes : reply :=
  data [VDict [("id", VInt 9); ("attributes", VNone)]].
Definition server_error : reply := Response 500 None.

Definition clock (n : nat) : string := "2026-01-01T00:00:00+00:00".

Definition lookup_A : request := GET_dest "agenda" "title" (VStr "A").
Definition post_A : request :=
  POST_dest "agenda" (VDict [("data", VDict payload_A)]).
Definition put_A (document_id : value) : request :=
  PUT_dest "agenda" document_id (VDict [("data", VDict payload_A)]).

Definition report (title : string) (act : action) (err : error_text)
    (dry_run : bool) : report_row :=
  {| row_entry := VStr title;
     row_action := act;
     row_error := err;
     row_timestamp := "2026-01-01T00:00:00+00:00";
     row_dry_run := dry_run |}.

(** The state after the two page requests of [one_page records]. *)
Definition fetched (records : list value) : state :=
  sent initial (pages (one_page records) "agenda" 1 2).

End Scenario.

(** ** Further notions: what a fetch collects and what a run sends *)

(** The attribute mapping of a raw record (line 45): its ["attributes"] when
    it has the key, the record itself otherwise. *)
Definition attributes_of (e : dict) : value :=
  if Dict.mem "attributes" e then Dict.get "attributes" e else VDict e.

(** The entries a page contributes to the fetch: none when the page ends the
    loop or raises. *)
Definition contribution (match_field : string) (r : reply) : list dict :=
  match page_view match_field r with
  | Returned (Some new) => new
  | _ => []
  end.

(** The entries of [n] consecutive pages from page [first], in page order. *)
Definition collected (match_field : string) (source : string -> nat -> reply)
    (collection : string) (first n : nat) : list dict :=
  flat_map (fun k => contribution match_field (source collection k)) (seq first n).

(** The match values looked up at the destination, in the order of the
    trace. *)
Definition lookups (tr : list exchange) : list value :=
  flat_map (fun x => match fst x with
                     | GET_dest _ _ v => [v]
                     | _ => []
                     end) tr.

(** The requests that go to the destination. *)
Definition to_destination (req : request) : bool :=
  match req with
  | GET_source _ _ => false
  | _ => true
  end.

(** A row that carries the flag of its run, whose error column is the empty
    string of lines 109 and 120 unless it is [failed], and the message of an
    exception (line 133) when it is. *)
Definition consistent_row (dry_run : bool) (r : report_row) : Prop :=
  row_dry_run r = dry_run /\
  (row_action r <> failed -> row_error r = empty_text) /\
  (row_action r = failed -> exists e, row_error r = str_of e).

(** A live row agrees with the dry row of the same entry when it has the
    same entry and either the same action or the action [failed]. *)
Definition foreseen (dry live : report_row) : Prop :=
  row_entry live = row_entry dry /\
  (row_action live = row_action dry \/ row_action live = failed).

(** A destination whose answer to a lookup does not depend on what was
    exchanged before. *)
Definition stable_lookups (dest : list exchange -> request -> reply) : Prop :=
  forall history history' collection match_field match_value,
    dest history (GET_dest collection match_field match_value) =
    dest history' (GET_dest collection match_field match_value).

(** Further concrete cases. *)
Module Cases.

(** A source whose every page holds one record. *)
Definition endless_source (collection : string) (page : nat) : reply :=
  Scenario.data [Scenario.keynote].

(** A record in the nested format, whose attributes carry an [id] of their
    own. *)
Definition nested : value :=
  VDict [("id", VInt 7);
         ("attributes", VDict [("id", VInt 70); ("title", VStr "N");
                               ("agendaFormatName", VStr "Talk")])].

Definition entry_N : dict :=
  [("id", VInt 7); ("title", VStr "N"); ("agendaFormatName", VStr "Talk");
   ("match_field", VStr "N")].

(** A record without [id], and records without a usable attribute mapping. *)
Definition anonymous : value := VDict [("title", VStr "Z")].
Definition hollow : value := VDict [("attributes", VDict [])].
Definition flat_null : value := VDict [("attributes", VNone); ("title", VStr "Y")].

(** A reply whose ["data"] is a single object, not a list. *)
Definition single_type : reply :=
  Scenario.ok (VDict [("data", VDict [("id", VInt 1); ("title", VStr "A")])]).

(** A destination that has no match for anything, accepts every write, and
    answers the lookup of "B" with a body that is not JSON. *)
Definition garbling_destination (history : list exchange) (req : request) : reply :=
  match req with
  | GET_dest _ _ (VStr title) =>
      if (title =? "B")%string then Response 200 None else Scenario.no_match
  | GET_dest _ _ _ => Scenario.no_match
  | _ => Scenario.ok (VDict [])
  end.

(** A lookup answer with two matches, and one with the first of them only. *)
Definition two_matches : reply :=
  Scenario.data
    [VDict [("id", VInt 9); ("attributes", VDict [("documentId", VStr "doc123")])];
     VDict [("id", VInt 10); ("attributes", VDict [("documentId", VStr "doc456")])]].

End Cases.

(** * Proofs *)

(** ** The fetcher, one record and one page at a time *)

Section FetcherFacts.

Variable source : string -> nat -> reply.
Variable dest : list exchange -> request -> reply.
Variable match_field : string.

Lemma dict_get_set_same k v d : Dict.get k (Dict.set k v d) = v.
Proof.
  unfold Dict.get, Dict.get_default.
  induction d as [| [k' v'] d IH]; simpl.
  - rewrite String.eqb_refl; reflexivity.
  - destruct (k =? k')%string eqn:E; simpl.
    + rewrite String.eqb_refl; reflexivity.
    + rewrite E; exact IH.
Qed.

Lemma dict_get_set_other k k' v d :
  k <> k' -> Dict.get k (Dict.set k' v d) = Dict.get k d.
Proof.
  intros Hne. unfold Dict.get, Dict.get_default.
  assert (Hkk : (k =? k')%string = false) by (apply String.eqb_neq; exact Hne).
  induction d as [| [k0 v0] d IH]; simpl.
  - rewrite Hkk; reflexivity.
  - destruct (k' =? k0)%string eqn:E; simpl.
    + apply String.eqb_eq in E; subst k0. rewrite Hkk; reflexivity.
    + destruct (k =? k0)%string; [reflexivity | exact IH].
Qed.

(** Away from ["id"], the match field is read from the attributes as the
    source sent them. *)
Lemma match_value_of_attribute e a :
  match_field <> "id" ->
  (if Dict.mem "attributes" e then Dict.get "attributes" e else VDict e) = VDict a ->
  match_value_of match_field (VDict e) = Dict.get match_field a.
Proof.
  intros Hne Ha. unfold match_value_of. rewrite Ha.
  apply dict_get_set_other; exact Hne.
Qed.

(** A record either leaves [entries] as it is or adds one entry at the
    end; which of the two does not depend on [entries]. *)
Lemma fetch_record_app entry entries :
  fetch_record match_field entry entries =
  and_then (fetch_record match_field entry [])
           (fun new => Returned (entries ++ new)).
Proof.
  destruct entry as [| b | n | x | s | items | e]; try reflexivity.
  unfold fetch_record.
  destruct (if Dict.mem "attributes" e then Dict.get "attributes" e else VDict e)
    as [| b | n | x | s | items | a]; simpl; try (rewrite app_nil_r; reflexivity).
  destruct a as [| kv a]; simpl; [rewrite app_nil_r; reflexivity |].
  unfold subscript. destruct (Dict.lookup "id" e) as [id |]; simpl; [| reflexivity].
  match goal with |- context [truthy ?v] => destruct (truthy v) end; simpl;
    [reflexivity | rewrite app_nil_r; reflexivity].
Qed.

Lemma fetch_records_app items : forall entries,
  fetch_records match_field items entries =
  and_then (fetch_records match_field items [])
           (fun new => Returned (entries ++ new)).
Proof.
  induction items as [| entry items IH]; intros entries; simpl.
  - rewrite app_nil_r; reflexivity.
  - rewrite fetch_record_app.
    destruct (fetch_record match_field entry []) as [new | e |]; simpl;
      try reflexivity.
    rewrite IH. rewrite (IH new).
    destruct (fetch_records match_field items []) as [more | e |]; simpl;
      try reflexivity.
    rewrite app_assoc; reflexivity.
Qed.

Lemma fetch_page_app r entries :
  fetch_page match_field r entries =
  and_then (page_view match_field r)
           (fun v => Returned (option_map (app entries) v)).
Proof.
  unfold page_view, fetch_page. destruct r as [s b | msg]; [| reflexivity].
  destruct (raise_for_status _); simpl; try reflexivity.
  destruct (res_json _) as [parsed | |]; simpl; try reflexivity.
  destruct (get_data parsed) as [data | |]; simpl; try reflexivity.
  destruct (if truthy data then first_item data else Returned VNone);
    simpl; try reflexivity.
  destruct (truthy data); simpl; [| reflexivity].
  destruct (iterate data) as [items | |]; simpl; try reflexivity.
  rewrite fetch_records_app.
  destruct (fetch_records match_field items []); reflexivity.
Qed.

(** One round of the loop: the request for [page] is sent, and the reply
    decides between leaving the loop, going on and raising. *)
Lemma fetch_pages_round fuel collection page entries st :
  fetch_pages source dest (S fuel) collection match_field page entries st =
  let st' := sent st (pages source collection page 1) in
  match fetch_page match_field (source collection page) entries with
  | Returned None => (Returned entries, st')
  | Returned (Some entries') =>
      fetch_pages source dest fuel collection match_field (S page) entries' st'
  | Raised e => (Raised e, st')
  | OutOfFuel => (OutOfFuel, st')
  end.
Proof.
  cbn [fetch_pages]. unfold bind at 1. unfold requests_call, answer, pages, sent.
  cbn [seq map]. unfold fetch_page.
  destruct (source collection page) as [s b | msg]; [| reflexivity].
  unfold bind at 1. unfold lift at 1.
  destruct (raise_for_status _) as [[] | e |]; cbn [and_then]; try reflexivity.
  unfold bind at 1. unfold lift at 1.
  destruct (res_json _) as [parsed | e |]; cbn [and_then]; try reflexivity.
  unfold bind at 1. unfold lift at 1.
  destruct (get_data parsed) as [data | e |]; cbn [and_then]; try reflexivity.
  unfold bind at 1.
  destruct (truthy data) eqn:Hdata; cbn [negb].
  - unfold lift at 1.
    destruct (first_item data) as [x | e |]; cbn [and_then]; try reflexivity.
    unfold bind at 1. unfold lift at 1.
    destruct (iterate data) as [items | e |]; cbn [and_then]; try reflexivity.
    unfold bind at 1. unfold lift at 1.
    destruct (fetch_records match_field items entries) as [entries' | e |];
      reflexivity.
  - reflexivity.
Qed.

End FetcherFacts.

Section Pagination.

Variable source : string -> nat -> reply.
Variable dest : list exchange -> request -> reply.
Variable collection match_field : string.

Lemma sent_sent st x y : sent (sent st x) y = sent st (x ++ y).
Proof. unfold sent; simpl. rewrite app_assoc; reflexivity. Qed.

Lemma pages_S first n :
  pages source collection first (S n) =
  pages source collection first 1 ++ pages source collection (S first) n.
Proof. reflexivity. Qed.

(** If the pages [page .. page + n - 1] carry data and page [page + n] is
    empty, the loop started at [page] asks for exactly these [n + 1] pages
    and returns, provided it is given that many rounds. *)
Lemma fetch_pages_reaches_empty_page : forall n fuel page entries st,
  (forall k, page <= k < page + n ->
     exists new, page_view match_field (source collection k) = Returned (Some new)) ->
  page_view match_field (source collection (page + n)) = Returned None ->
  n < fuel ->
  exists entries',
    fetch_pages source dest fuel collection match_field page entries st =
    (Returned entries', sent st (pages source collection page (S n))).
Proof.
  induction n as [| n IH]; intros fuel page entries st Hdata Hempty Hfuel.
  - destruct fuel as [| fuel]; [lia |].
    rewrite fetch_pages_round, fetch_page_app.
    rewrite Nat.add_0_r in Hempty. rewrite Hempty. simpl.
    exists entries; reflexivity.
  - destruct fuel as [| fuel]; [lia |].
    rewrite fetch_pages_round, fetch_page_app.
    destruct (Hdata page) as [new Hnew]; [lia |].
    rewrite Hnew. cbn [and_then option_map].
    destruct (IH fuel (S page) (entries ++ new)
                (sent st (pages source collection page 1))) as [entries' He].
    + intros k Hk. apply Hdata; lia.
    + replace (S page + n) with (page + S n) by lia. exact Hempty.
    + lia.
    + exists entries'. cbv zeta. rewrite He, sent_sent, <- pages_S. reflexivity.
Qed.

(** Conversely, the loop returns only at an empty page that follows pages
    with data, and has then asked for these pages and no other. *)
Lemma fetch_pages_returns_at_empty_page : forall fuel page entries st entries' st',
  fetch_pages source dest fuel collection match_field page entries st =
    (Returned entries', st') ->
  exists n,
    n < fuel /\
    page_view match_field (source collection (page + n)) = Returned None /\
    (forall k, page <= k < page + n ->
       exists new, page_view match_field (source collection k) = Returned (Some new)) /\
    st' = sent st (pages source collection page (S n)).
Proof.
  induction fuel as [| fuel IH]; intros page entries st entries' st' Hrun.
  - discriminate Hrun.
  - rewrite fetch_pages_round, fetch_page_app in Hrun. cbv zeta in Hrun.
    destruct (page_view match_field (source collection page)) as [[new |] | e |] eqn:Hview;
      cbn [and_then option_map] in Hrun; try discriminate Hrun.
    + apply IH in Hrun. destruct Hrun as (n & Hn & Hempty & Hdata & Hst).
      exists (S n). repeat split.
      * lia.
      * replace (page + S n) with (S page + n) by lia. exact Hempty.
      * intros k Hk. destruct (Nat.eq_dec k page) as [-> | Hne].
        -- exists new; exact Hview.
        -- apply Hdata; lia.
      * rewrite Hst, sent_sent, <- pages_S. reflexivity.
    + exists 0. rewrite Nat.add_0_r. repeat split.
      * lia.
      * exact Hview.
      * intros k Hk; lia.
      * injection Hrun as _ Hst. symmetry; exact Hst.
Qed.

(** An empty page, in the words of the module: a response whose status is
    not an error, whose body is a JSON object, and whose ["data"] (the empty
    list when absent) is falsy. *)
Lemma page_view_empty s d :
  error_status s = false ->
  truthy (Dict.get_default "data" (VList []) d) = false ->
  page_view match_field (Response s (Some (VDict d))) = Returned None.
Proof.
  intros Hs Hd. unfold page_view, fetch_page, raise_for_status. simpl.
  unfold error_status in Hs. rewrite Hs. simpl. rewrite Hd. reflexivity.
Qed.

End Pagination.

(** C7.  For every sequence of source pages, the pagination loop requests
    pages 1, 2, ... in order and stops exactly at the first page whose data is
    empty: if pages 1 to n-1 carry data and page n is empty, then the loop,
    given at least n rounds, returns after the requests for pages 1 to n and
    no other; and whenever the loop returns, it has made the requests for
    pages 1 to n, for an n such that page n is empty and every page before it
    carries data. *)
Theorem pagination_stops_at_first_empty_page :
  forall (source : string -> nat -> reply) (dest : list exchange -> request -> reply)
         (collection match_field : string),
    (forall n fuel st,
        1 <= n <= fuel ->
        (forall k, 1 <= k < n ->
           exists new, page_view match_field (source collection k) = Returned (Some new)) ->
        page_view match_field (source collection n) = Returned None ->
        exists entries,
          fetch_entries source dest fuel collection match_field st =
          (Returned entries, sent st (pages source collection 1 n)))
    /\
    (forall fuel st entries st',
        fetch_entries source dest fuel collection match_field st = (Returned entries, st') ->
        exists n,
          1 <= n <= fuel /\
          page_view match_field (source collection n) = Returned None /\
          (forall k, 1 <= k < n ->
             exists new, page_view match_field (source collection k) = Returned (Some new)) /\
          st' = sent st (pages source collection 1 n)).
Proof.
  intros source dest collection match_field. split.
  - intros n fuel st Hn Hdata Hempty. unfold fetch_entries.
    destruct n as [| n]; [lia |].
    apply fetch_pages_reaches_empty_page.
    + intros k Hk. apply Hdata; lia.
    + exact Hempty.
    + lia.
  - intros fuel st entries st' Hrun. unfold fetch_entries in Hrun.
    apply fetch_pages_returns_at_empty_page in Hrun.
    destruct Hrun as (n & Hn & Hempty & Hdata & Hst).
    exists (S n). repeat split.
    + lia.
    + lia.
    + exact Hempty.
    + intros k Hk. apply Hdata; lia.
    + exact Hst.
Qed.

(** ** Records without a match value *)

Section Skipping.

Variable match_field : string.

Lemma subscript_get k d :
  Dict.mem k d = true -> subscript k d = Returned (Dict.get k d).
Proof.
  unfold Dict.mem, subscript, Dict.get, Dict.get_default.
  destruct (Dict.lookup k d); [reflexivity | discriminate].
Qed.

(** Whatever the record is, the fetcher does not add it when the match value
    it reads is falsy: it leaves [entries] alone or raises. *)
Lemma fetch_record_blank entry entries entries' :
  truthy (match_value_of match_field entry) = false ->
  fetch_record match_field entry entries = Returned entries' ->
  entries' = entries.
Proof.
  intros Hblank Hrun.
  destruct entry as [| b | n | x | s | items | e]; try discriminate Hrun.
  unfold fetch_record in Hrun. unfold match_value_of in Hblank.
  destruct (if Dict.mem "attributes" e then Dict.get "attributes" e else VDict e)
    as [| b | n | x | s | items | a]; try (injection Hrun as <-; reflexivity).
  destruct (negb (truthy (VDict a))); [injection Hrun as <-; reflexivity |].
  unfold subscript in Hrun. unfold Dict.get at 2 in Hblank.
  unfold Dict.get_default in Hblank.
  destruct (Dict.lookup "id" e) as [id |]; [| discriminate Hrun].
  cbn [and_then] in Hrun. rewrite Hblank in Hrun.
  injection Hrun as <-; reflexivity.
Qed.

Lemma fetch_record_skips entry entries :
  truthy (match_value_of match_field entry) = false ->
  is_record entry = true ->
  fetch_record match_field entry entries = Returned entries.
Proof.
  intros Hblank Hrec.
  destruct entry as [| b | n | x | s | items | e]; try discriminate Hrec.
  cbn [is_record] in Hrec.
  unfold fetch_record. unfold match_value_of in Hblank.
  destruct (if Dict.mem "attributes" e then Dict.get "attributes" e else VDict e)
    as [| b | n | x | s | items | a]; try reflexivity.
  destruct (negb (truthy (VDict a))); [reflexivity |].
  rewrite (subscript_get _ _ Hrec). cbn [and_then].
  rewrite Hblank. reflexivity.
Qed.

(** An entry enters the list only with a truthy match value, which it then
    carries under the match field and under ["match_field"]. *)
#[local] Abbreviation matched := (has_match_value match_field).

Lemma fetch_record_has_match_value entry entries entries' :
  Forall matched entries ->
  fetch_record match_field entry entries = Returned entries' ->
  Forall matched entries'.
Proof.
  intros Hall Hrun.
  destruct entry as [| b | n | x | s | items | e]; try discriminate Hrun.
  unfold fetch_record in Hrun.
  destruct (if Dict.mem "attributes" e then Dict.get "attributes" e else VDict e)
    as [| b | n | x | s | items | a]; try (injection Hrun as <-; exact Hall).
  destruct (negb (truthy (VDict a))); [injection Hrun as <-; exact Hall |].
  destruct (subscript "id" e) as [id | |]; try discriminate Hrun.
  cbn [and_then] in Hrun.
  destruct (truthy (Dict.get match_field (Dict.set "id" id a))) eqn:Hmv;
    cbn [negb] in Hrun; injection Hrun as <-; [| exact Hall].
  apply Forall_app; split; [exact Hall |].
  constructor; [| constructor].
  assert (Hsame : Dict.get match_field
            (Dict.set "match_field" (Dict.get match_field (Dict.set "id" id a))
                      (Dict.set "id" id a))
          = Dict.get match_field (Dict.set "id" id a)).
  { destruct (String.eqb_spec match_field "match_field") as [-> | Hne].
    - apply dict_get_set_same.
    - apply dict_get_set_other; exact Hne. }
  split.
  - rewrite Hsame; exact Hmv.
  - rewrite Hsame; apply dict_get_set_same.
Qed.

Lemma fetch_records_has_match_value items : forall entries entries',
  Forall matched entries ->
  fetch_records match_field items entries = Returned entries' ->
  Forall matched entries'.
Proof.
  induction items as [| entry items IH]; intros entries entries' Hall Hrun;
    simpl in Hrun.
  - injection Hrun as <-; exact Hall.
  - destruct (fetch_record match_field entry entries) as [mid | |] eqn:Hrec;
      try discriminate Hrun.
    cbn [and_then] in Hrun.
    eapply IH; [| exact Hrun].
    eapply fetch_record_has_match_value; eassumption.
Qed.

Lemma fetch_page_has_match_value r entries entries' :
  Forall matched entries ->
  fetch_page match_field r entries = Returned (Some entries') ->
  Forall matched entries'.
Proof.
  intros Hall Hrun. unfold fetch_page in Hrun.
  destruct r as [s b | msg]; [| discriminate Hrun].
  destruct (raise_for_status _); try discriminate Hrun. cbn [and_then] in Hrun.
  destruct (res_json _) as [parsed | |]; try discriminate Hrun. cbn [and_then] in Hrun.
  destruct (get_data parsed) as [data | |]; try discriminate Hrun. cbn [and_then] in Hrun.
  destruct (if truthy data then first_item data else Returned VNone);
    try discriminate Hrun. cbn [and_then] in Hrun.
  destruct (negb (truthy data)); [discriminate Hrun |].
  destruct (iterate data) as [items | |]; try discriminate Hrun. cbn [and_then] in Hrun.
  destruct (fetch_records match_field items entries) as [out | |] eqn:Hrecs;
    try discriminate Hrun.
  cbn [and_then] in Hrun. injection Hrun as <-.
  eapply fetch_records_has_match_value; eassumption.
Qed.

(** Every entry the fetcher returns has a truthy match value. *)
Lemma fetched_entries_have_match_value source dest collection :
  forall fuel page entries st entries' st',
    Forall matched entries ->
    fetch_pages source dest fuel collection match_field page entries st =
      (Returned entries', st') ->
    Forall matched entries'.
Proof.
  induction fuel as [| fuel IH]; intros page entries st entries' st' Hall Hrun.
  - discriminate Hrun.
  - rewrite fetch_pages_round in Hrun. cbv zeta in Hrun.
    destruct (fetch_page match_field (source collection page) entries)
      as [[mid |] | e |] eqn:Hpage; try discriminate Hrun.
    + eapply IH; [| exact Hrun].
      eapply fetch_page_has_match_value; eassumption.
    + injection Hrun as <- _. exact Hall.
Qed.

End Skipping.

(** The empty, missing and null match values are among those Python holds
    false. *)
Lemma blank_values_are_falsy :
  truthy VNone = false /\ truthy (VStr "") = false /\
  truthy (VList []) = false /\ truthy (VDict []) = false /\
  forall k d, Dict.mem k d = false -> truthy (Dict.get k d) = false.
Proof.
  repeat split. intros k d H. unfold Dict.mem in H.
  unfold Dict.get, Dict.get_default.
  destruct (Dict.lookup k d); [discriminate H | reflexivity].
Qed.

(** C6.  A raw record whose match-field value is empty, missing or null (any
    value Python holds false) is skipped without an error: the round of the
    loop that handles it returns the list of entries as it was, and a page
    gives the same result with the record as without it. *)
Theorem blank_match_field_is_skipped :
  forall (match_field : string) (entry : value),
    is_record entry = true ->
    truthy (match_value_of match_field entry) = false ->
    (forall entries, fetch_record match_field entry entries = Returned entries)
    /\
    (forall before after entries,
        fetch_records match_field (before ++ entry :: after) entries =
        fetch_records match_field (before ++ after) entries).
Proof.
  intros match_field entry Hrec Hblank.
  assert (Hskip : forall entries,
             fetch_record match_field entry entries = Returned entries)
    by (intros entries; apply fetch_record_skips; assumption).
  split; [exact Hskip |].
  induction before as [| x before IH]; intros after entries; simpl.
  - rewrite Hskip. reflexivity.
  - destruct (fetch_record match_field x entries) as [mid | e |]; simpl;
      [apply IH | reflexivity | reflexivity].
Qed.

(** ** The executor, one entry at a time *)

Section Executor.

Variable source : string -> nat -> reply.
Variable dest : list exchange -> request -> reply.
Variable clock : nat -> string.
Variable collection match_field : string.

#[local] Abbreviation lookup := (find_existing_entry source dest collection match_field).
#[local] Abbreviation try_body := (upsert source dest collection).
#[local] Abbreviation round := (migrate_entry source dest clock collection match_field).
#[local] Abbreviation new_row := (row clock match_field).

(** The lookup sends one request and reads the reply. *)
Lemma find_existing_entry_eq match_value st :
  let req := GET_dest collection match_field match_value in
  lookup match_value st =
  (existing_of (dest (trace st) req), sent st [(req, dest (trace st) req)]).
Proof.
  cbv zeta. unfold find_existing_entry.
  unfold bind at 1. unfold requests_call, answer, sent, existing_of.
  destruct (dest (trace st) _) as [s b | msg]; [| reflexivity].
  unfold bind at 1. unfold lift at 1.
  destruct (raise_for_status _) as [[] | e |]; cbn [and_then]; try reflexivity.
  unfold bind at 1. unfold lift at 1.
  destruct (res_json _) as [parsed | e |]; cbn [and_then]; try reflexivity.
  unfold bind at 1. unfold lift at 1.
  destruct (get_data parsed) as [data | e |]; cbn [and_then]; try reflexivity.
  destruct (truthy data); [| reflexivity].
  unfold bind at 1. unfold lift at 1.
  destruct (first_item data) as [first | e |]; cbn [and_then]; try reflexivity.
  destruct (is_dict first); [| reflexivity].
  unfold bind at 1. unfold lift at 1.
  destruct (method_get "attributes" _ first) as [attributes | e |];
    cbn [and_then]; try reflexivity.
  unfold bind at 1. unfold lift at 1.
  destruct (method_get "documentId" _ attributes) as [document_id | e |];
    reflexivity.
Qed.

(** The lookup returns [None] or a one-key dictionary. *)
Lemma existing_of_shape r existing :
  existing_of r = Returned existing ->
  existing = VNone \/ exists d, existing = VDict [("documentId", d)].
Proof.
  unfold existing_of. destruct r as [s b | msg]; [| discriminate].
  destruct (raise_for_status _); cbn [and_then]; try discriminate.
  destruct (res_json _) as [parsed | |]; cbn [and_then]; try discriminate.
  destruct (get_data parsed) as [data | |]; cbn [and_then]; try discriminate.
  destruct (truthy data); [| intros [= <-]; left; reflexivity].
  destruct (first_item data) as [first | |]; cbn [and_then]; try discriminate.
  destruct (is_dict first); [| intros [= <-]; left; reflexivity].
  destruct (method_get "attributes" _ first) as [attributes | |];
    cbn [and_then]; try discriminate.
  destruct (method_get "documentId" _ attributes) as [document_id | |];
    cbn [and_then]; try discriminate.
  intros [= <-]. right. exists document_id. reflexivity.
Qed.

Lemma find_existing_entry_shape match_value st existing st1 :
  lookup match_value st = (Returned existing, st1) ->
  existing = VNone \/ exists d, existing = VDict [("documentId", d)].
Proof.
  rewrite find_existing_entry_eq. cbv zeta. intros [= H _].
  eapply existing_of_shape; exact H.
Qed.

(** Line 96 never raises on what the lookup returns. *)
Lemma update_doc_id_eq existing :
  existing = VNone \/ (exists d, existing = VDict [("documentId", d)]) ->
  (if truthy existing then method_get "documentId" VNone existing else Returned VNone)
  = Returned (doc_id_of existing).
Proof. intros [-> | [d ->]]; reflexivity. Qed.

(** The [try] body in a dry run: nothing is sent and nothing raises. *)
Lemma upsert_dry_run existing update_doc_id post_payload st :
  try_body true existing update_doc_id post_payload st =
  (Returned (prospective existing), st).
Proof. unfold upsert, prospective. destruct (truthy existing); reflexivity. Qed.

(** The [try] body in a live run: one write is sent, and the reply decides
    between returning the action and raising. *)
Lemma upsert_live existing payload st :
  let req := write_request collection existing payload in
  let r := dest (trace st) req in
  try_body false existing (doc_id_of existing) (post_payload_of payload) st =
  (and_then (delivered r) (fun _ => Returned (prospective existing)),
   sent st [(req, r)]).
Proof.
  cbv zeta. unfold upsert, write_request, prospective.
  destruct (truthy existing); cbn [negb];
    unfold bind at 1; unfold bind at 1; unfold requests_call, answer, delivered, sent;
    destruct (dest (trace st) _) as [s b | msg]; try reflexivity;
    unfold lift; destruct (raise_for_status _) as [[] | e |]; reflexivity.
Qed.

(** A round stops at [sanitize_payload] when it raises: nothing was sent. *)
Lemma migrate_entry_sanitize_raises dry_run entry report_rows st e :
  sanitize_payload entry = Raised e ->
  round dry_run entry report_rows st = (Raised e, st).
Proof.
  intros H. unfold migrate_entry. cbv zeta. unfold bind at 1, lift at 1.
  rewrite H. reflexivity.
Qed.

(** A round stops at the lookup when it raises: the [try] is not entered. *)
Lemma migrate_entry_lookup_raises dry_run entry report_rows st payload e st1 :
  sanitize_payload entry = Returned payload ->
  lookup (Dict.get match_field entry) st = (Raised e, st1) ->
  round dry_run entry report_rows st = (Raised e, st1).
Proof.
  intros Hp Hf. unfold migrate_entry. cbv zeta. unfold bind at 1, lift at 1.
  rewrite Hp. unfold bind at 1. rewrite Hf. reflexivity.
Qed.

(** A dry round that got past the lookup. *)
Lemma migrate_entry_dry_run entry report_rows st payload existing st1 :
  sanitize_payload entry = Returned payload ->
  lookup (Dict.get match_field entry) st = (Returned existing, st1) ->
  round true entry report_rows st =
  (Returned (report_rows ++ [new_row entry (prospective existing) empty_text true report_rows]), st1).
Proof.
  intros Hp Hf. pose proof (find_existing_entry_shape _ _ _ _ Hf) as Hshape.
  unfold migrate_entry. cbv zeta. unfold bind at 1, lift at 1.
  rewrite Hp. unfold bind at 1. rewrite Hf.
  unfold bind at 1, lift at 1. rewrite (update_doc_id_eq _ Hshape).
  unfold try_except, bind. rewrite upsert_dry_run. reflexivity.
Qed.

(** A live round that got past the lookup: one write, and one row whatever
    the reply. *)
Lemma migrate_entry_live entry report_rows st payload existing st1 :
  sanitize_payload entry = Returned payload ->
  lookup (Dict.get match_field entry) st = (Returned existing, st1) ->
  let req := write_request collection existing payload in
  let r := dest (trace st1) req in
  round false entry report_rows st =
  (Returned (report_rows ++
     [match delivered r with
      | Raised e => new_row entry failed (str_of e) false report_rows
      | _ => new_row entry (prospective existing) empty_text false report_rows
      end]),
   sent st1 [(req, r)]).
Proof.
  intros Hp Hf. pose proof (find_existing_entry_shape _ _ _ _ Hf) as Hshape.
  cbv zeta. unfold migrate_entry. cbv zeta. unfold bind at 1, lift at 1.
  rewrite Hp. unfold bind at 1. rewrite Hf.
  unfold bind at 1, lift at 1. rewrite (update_doc_id_eq _ Hshape).
  unfold try_except, bind.
  change (VDict [("data", VDict payload)]) with (post_payload_of payload).
  rewrite upsert_live. cbv zeta. unfold delivered.
  destruct (dest (trace st1) _) as [s b | msg]; [| reflexivity].
  unfold raise_for_status. destruct (_ && _)%bool; reflexivity.
Qed.

End Executor.

(** ** The executor's rounds, by cases *)

Section Rounds.

Variable source : string -> nat -> reply.
Variable dest : list exchange -> request -> reply.
Variable clock : nat -> string.
Variable collection match_field : string.

#[local] Abbreviation lookup := (find_existing_entry source dest collection match_field).
#[local] Abbreviation round := (migrate_entry source dest clock collection match_field).
#[local] Abbreviation rounds := (migrate_entries source dest clock collection match_field).
#[local] Abbreviation new_row := (row clock match_field).

Lemma sanitize_payload_no_timeout entry : sanitize_payload entry <> OutOfFuel.
Proof.
  unfold sanitize_payload, subscript.
  destruct (Dict.lookup "agendaFormatName" entry); cbn [and_then]; [| discriminate].
  destruct (Dict.lookup "agendaFormatOrder" entry); discriminate.
Qed.

Lemma existing_of_no_timeout r : existing_of r <> OutOfFuel.
Proof.
  unfold existing_of. destruct r as [s b | msg]; [| discriminate].
  unfold raise_for_status. destruct (_ && _)%bool; cbn [and_then]; [discriminate |].
  unfold res_json. destruct b as [parsed |]; cbn [body and_then]; [| discriminate].
  unfold get_data, method_get at 1.
  destruct parsed; cbn [and_then]; try discriminate.
  destruct (truthy _); [| discriminate].
  match goal with |- context [first_item ?d] => destruct d as [| ? | ? | ? | [| ? ?] | [| first ?] | ?] end;
    cbn [first_item and_then is_dict]; try discriminate.
  destruct first; cbn [is_dict method_get and_then]; try discriminate.
  match goal with |- context [Dict.get_default "attributes" ?x ?y] =>
    destruct (Dict.get_default "attributes" x y) end; cbn [and_then]; discriminate.
Qed.

(** The three ways a round can go: [sanitize_payload] raises and nothing is
    sent; the lookup raises after its request; or one row is added, after
    the lookup alone in a dry run and after the lookup and one write in a
    live run. *)
Lemma migrate_entry_cases dry_run entry report_rows st :
  let req := lookup_request collection match_field entry in
  let st1 := sent st [(req, dest (trace st) req)] in
  (exists e, sanitize_payload entry = Raised e /\
             round dry_run entry report_rows st = (Raised e, st))
  \/
  (exists payload e,
      sanitize_payload entry = Returned payload /\
      lookup (Dict.get match_field entry) st = (Raised e, st1) /\
      round dry_run entry report_rows st = (Raised e, st1))
  \/
  (exists payload existing r st2,
      sanitize_payload entry = Returned payload /\
      lookup (Dict.get match_field entry) st = (Returned existing, st1) /\
      round dry_run entry report_rows st = (Returned (report_rows ++ [r]), st2) /\
      row_entry r = Dict.get match_field entry /\
      row_dry_run r = dry_run /\
      (if dry_run
       then st2 = st1 /\ r = new_row entry (prospective existing) empty_text true report_rows
       else
         let w := write_request collection existing payload in
         st2 = sent st1 [(w, dest (trace st1) w)] /\
         r = match delivered (dest (trace st1) w) with
             | Raised e => new_row entry failed (str_of e) false report_rows
             | _ => new_row entry (prospective existing) empty_text false report_rows
             end)).
Proof.
  cbv zeta.
  destruct (sanitize_payload entry) as [payload | e |] eqn:Hp.
  - pose proof (find_existing_entry_eq source dest collection match_field
                  (Dict.get match_field entry) st) as Hf.
    cbv zeta in Hf. fold (lookup_request collection match_field entry) in Hf.
    destruct (existing_of (dest (trace st) (lookup_request collection match_field entry)))
      as [existing | e |] eqn:Hex.
    + right; right. exists payload, existing.
      destruct dry_run.
      * eexists; eexists. split; [reflexivity |]. split; [exact Hf |].
        split; [apply (migrate_entry_dry_run _ _ _ _ _ _ _ _ _ _ _ Hp Hf) |].
        repeat split; reflexivity.
      * pose proof (migrate_entry_live _ _ clock _ _ _ report_rows _ _ _ _ Hp Hf) as Hl.
        cbv zeta in Hl.
        eexists; eexists. split; [reflexivity |]. split; [exact Hf |].
        split; [exact Hl |].
        split; [destruct (delivered _); reflexivity |].
        split; [destruct (delivered _); reflexivity |].
        split; reflexivity.
    + right; left. exists payload, e. split; [reflexivity |]. split; [exact Hf |].
      eapply migrate_entry_lookup_raises; [exact Hp | exact Hf].
    + exfalso. eapply existing_of_no_timeout; exact Hex.
  - left. exists e. split; [reflexivity |].
    apply migrate_entry_sanitize_raises; exact Hp.
  - exfalso. eapply sanitize_payload_no_timeout; exact Hp.
Qed.

(** A round that returns has added exactly one row, that of its entry. *)
Lemma migrate_entry_row dry_run entry report_rows st rows' st' :
  round dry_run entry report_rows st = (Returned rows', st') ->
  exists r, rows' = report_rows ++ [r] /\ row_entry r = Dict.get match_field entry.
Proof.
  intros Hrun.
  destruct (migrate_entry_cases dry_run entry report_rows st)
    as [(e & _ & H) | [(payload & e & _ & _ & H) | (payload & existing & r & st2 & _ & _ & H & Hr & _)]];
    rewrite H in Hrun; try discriminate Hrun.
  injection Hrun as <- _. exists r. split; [reflexivity | exact Hr].
Qed.

(** A round never runs out of fuel: only the pagination loop can. *)
Lemma migrate_entry_no_timeout dry_run entry report_rows st :
  fst (round dry_run entry report_rows st) <> OutOfFuel.
Proof.
  destruct (migrate_entry_cases dry_run entry report_rows st)
    as [(e & _ & H) | [(payload & e & _ & _ & H) | (payload & existing & r & st2 & _ & _ & H & _)]];
    rewrite H; discriminate.
Qed.

Lemma migrate_entries_cons dry_run entry rest report_rows st :
  rounds dry_run (entry :: rest) report_rows st =
  match round dry_run entry report_rows st with
  | (Returned rows', st') => rounds dry_run rest rows' st'
  | (Raised e, st') => (Raised e, st')
  | (OutOfFuel, st') => (OutOfFuel, st')
  end.
Proof. reflexivity. Qed.

Lemma migrate_entries_no_timeout dry_run entries : forall report_rows st,
  fst (rounds dry_run entries report_rows st) <> OutOfFuel.
Proof.
  induction entries as [| entry rest IH]; intros report_rows st.
  - discriminate.
  - rewrite migrate_entries_cons.
    pose proof (migrate_entry_no_timeout dry_run entry report_rows st) as Hnt.
    destruct (round dry_run entry report_rows st) as [[rows' | e |] st'].
    + apply IH.
    + discriminate.
    + exfalso; apply Hnt; reflexivity.
Qed.

(** The rows of a loop that returns: those it started with, then one per
    entry, in the order of the entries. *)
Lemma migrate_entries_rows dry_run entries : forall report_rows st rows' st',
  rounds dry_run entries report_rows st = (Returned rows', st') ->
  exists added,
    rows' = report_rows ++ added /\
    map row_entry added = map (Dict.get match_field) entries.
Proof.
  induction entries as [| entry rest IH]; intros report_rows st rows' st' Hrun.
  - injection Hrun as <- _. exists []. rewrite app_nil_r. split; reflexivity.
  - rewrite migrate_entries_cons in Hrun.
    destruct (round dry_run entry report_rows st) as [[mid | e |] st1] eqn:Hround;
      try discriminate Hrun.
    apply migrate_entry_row in Hround. destruct Hround as (r & -> & Hr).
    apply IH in Hrun. destruct Hrun as (added & -> & Hadded).
    exists (r :: added). split.
    + rewrite <- app_assoc. reflexivity.
    + simpl. rewrite Hr, Hadded. reflexivity.
Qed.

End Rounds.

(** ** What every run preserves *)

Section Stable.

Variable source : string -> nat -> reply.
Variable dest : list exchange -> request -> reply.
Variable clock : nat -> string.
Variable collection match_field : string.

(** A property of the state that survives the recording of the exchanges
    for the requests in [allowed], which include the reads. *)
Variable I : state -> Prop.
Variable allowed : request -> bool.
Hypothesis I_sent :
  forall st req r, allowed req = true -> I st -> I (sent st [(req, r)]).
Hypothesis reads_allowed : forall req, is_get req = true -> allowed req = true.

Lemma keeps_fetch_pages : forall fuel page entries,
  keeps I (fetch_pages source dest fuel collection match_field page entries).
Proof.
  induction fuel as [| fuel IH]; intros page entries st HI.
  - exact HI.
  - rewrite fetch_pages_round. cbv zeta.
    assert (HI' : I (sent st (pages source collection page 1)))
      by (apply I_sent; [apply reads_allowed; reflexivity | exact HI]).
    destruct (fetch_page match_field (source collection page) entries)
      as [[entries' |] | e |]; try exact HI'.
    apply IH; exact HI'.
Qed.

Lemma keeps_migrate_entry dry_run entry report_rows :
  (dry_run = false -> forall req, allowed req = true) ->
  keeps I (migrate_entry source dest clock collection match_field dry_run entry report_rows).
Proof.
  intros Hw st HI.
  assert (HI1 : I (sent st [(lookup_request collection match_field entry,
                             dest (trace st) (lookup_request collection match_field entry))]))
    by (apply I_sent; [apply reads_allowed; reflexivity | exact HI]).
  destruct (migrate_entry_cases source dest clock collection match_field
              dry_run entry report_rows st)
    as [(e & _ & H) | [(payload & e & _ & _ & H) | (payload & existing & r & st2 & _ & _ & H & _ & _ & Hst)]];
    rewrite H; cbn [snd]; try assumption.
  destruct dry_run.
  - destruct Hst as [-> _]. exact HI1.
  - cbv zeta in Hst. destruct Hst as [-> _].
    apply I_sent; [apply Hw; reflexivity | exact HI1].
Qed.

Lemma keeps_migrate_entries dry_run :
  (dry_run = false -> forall req, allowed req = true) ->
  forall entries report_rows,
    keeps I (migrate_entries source dest clock collection match_field dry_run entries report_rows).
Proof.
  intros Hw. induction entries as [| entry rest IH]; intros report_rows st HI.
  - exact HI.
  - rewrite migrate_entries_cons.
    pose proof (keeps_migrate_entry dry_run entry report_rows Hw st HI) as H1.
    destruct (migrate_entry _ _ _ _ _ _ _ _ st) as [[rows' | e |] st1];
      cbn [snd] in H1; try exact H1.
    apply IH; exact H1.
Qed.

End Stable.

Section WholeRun.

Variable source : string -> nat -> reply.
Variable dest : list exchange -> request -> reply.
Variable clock : nat -> string.
Variable collection match_field : string.

(** The report file is written by the last statement and by no other. *)
Lemma fetch_entries_writes_no_report fuel st :
  report_file (snd (fetch_entries source dest fuel collection match_field st)) =
  report_file st.
Proof.
  apply (keeps_fetch_pages source dest collection match_field
           (fun st' => report_file st' = report_file st) (fun _ => true));
    [intros; assumption | reflexivity | reflexivity].
Qed.

Lemma migrate_entries_writes_no_report dry_run entries report_rows st :
  report_file (snd (migrate_entries source dest clock collection match_field
                      dry_run entries report_rows st)) =
  report_file st.
Proof.
  apply (keeps_migrate_entries source dest clock collection match_field
           (fun st' => report_file st' = report_file st) (fun _ => true));
    [intros; assumption | reflexivity | reflexivity | reflexivity].
Qed.

(** A run, by its two phases. *)
Lemma migrate_collection_eq fuel dry_run st :
  migrate_collection source dest clock fuel collection match_field dry_run st =
  match fetch_entries source dest fuel collection match_field st with
  | (Returned entries, st1) =>
      match migrate_entries source dest clock collection match_field dry_run entries [] st1 with
      | (Returned report_rows, st2) =>
          (Returned tt, {| trace := trace st2; report_file := Some report_rows |})
      | (Raised e, st2) => (Raised e, st2)
      | (OutOfFuel, st2) => (OutOfFuel, st2)
      end
  | (Raised e, st1) => (Raised e, st1)
  | (OutOfFuel, st1) => (OutOfFuel, st1)
  end.
Proof.
  unfold migrate_collection, bind, write_report.
  destruct (fetch_entries _ _ _ _ _ st) as [[entries | e |] st1]; reflexivity.
Qed.

(** In a dry run only reads are sent. *)
Lemma dry_run_only_reads fuel st :
  only_reads (trace st) ->
  only_reads (trace (snd (migrate_collection source dest clock fuel collection
                            match_field true st))).
Proof.
  intros Hst.
  assert (Hsent : forall st req r,
             is_get req = true -> only_reads (trace st) ->
             only_reads (trace (sent st [(req, r)]))).
  { intros st0 req r Hreq H0. unfold only_reads, sent; cbn [trace].
    apply Forall_app; split; [exact H0 |]. constructor; [exact Hreq | constructor]. }
  rewrite migrate_collection_eq.
  pose proof (keeps_fetch_pages source dest collection match_field
                (fun st => only_reads (trace st)) is_get Hsent (fun _ H => H)
                fuel 1 [] st Hst) as Hfetch.
  fold (fetch_entries source dest fuel collection match_field) in Hfetch.
  destruct (fetch_entries _ _ _ _ _ st) as [[entries | e |] st1];
    cbn [snd] in Hfetch; try exact Hfetch.
  pose proof (keeps_migrate_entries source dest clock collection match_field
                (fun st => only_reads (trace st)) is_get Hsent (fun _ H => H)
                true (fun H => False_ind _ (Bool.diff_true_false H))
                entries [] st1 Hfetch) as Hloop.
  destruct (migrate_entries _ _ _ _ _ _ _ _ st1) as [[rows | e |] st2];
    cbn [snd] in Hloop; exact Hloop.
Qed.

End WholeRun.

(** ** The properties of the executor *)

Lemma only_reads_writes tr : only_reads tr -> writes tr = [].
Proof.
  unfold only_reads, writes. induction 1 as [| x tr Hx _ IH]; simpl.
  - reflexivity.
  - rewrite Hx. exact IH.
Qed.

Lemma writes_app tr tr' : writes (tr ++ tr') = writes tr ++ writes tr'.
Proof. apply filter_app. Qed.

(** C5.  For every entry processed with [dry_run = true] (its payload fields
    present, its lookup answered), no PUT and no POST is sent: the round adds
    no write to the trace, and a whole dry run has none; yet the round adds a
    report row whose action is the prospective one, [updated] when the lookup
    found a match and [created] when it found none. *)
Theorem dry_run_sends_no_write :
  forall (source : string -> nat -> reply) (dest : list exchange -> request -> reply)
         (clock : nat -> string) (collection match_field : string)
         (entry : dict) (report_rows : list report_row) (st : state)
         (payload : dict) (existing : value) (st1 : state),
    sanitize_payload entry = Returned payload ->
    find_existing_entry source dest collection match_field
      (Dict.get match_field entry) st = (Returned existing, st1) ->
    migrate_entry source dest clock collection match_field true entry report_rows st =
      (Returned (report_rows ++
         [{| row_entry := Dict.get match_field entry;
             row_action := if truthy existing then updated else created;
             row_error := empty_text;
             row_timestamp := clock (length report_rows);
             row_dry_run := true |}]), st1)
    /\ writes (trace st1) = writes (trace st)
    /\ forall fuel,
         writes (trace (snd (migrate_collection source dest clock fuel collection
                               match_field true initial))) = [].
Proof.
  intros source dest clock collection match_field entry report_rows st
         payload existing st1 Hp Hf.
  split; [| split].
  - exact (migrate_entry_dry_run source dest clock collection match_field
             entry report_rows st payload existing st1 Hp Hf).
  - rewrite find_existing_entry_eq in Hf. cbv zeta in Hf.
    injection Hf as _ <-. unfold sent; cbn [trace].
    rewrite writes_app. cbn. apply app_nil_r.
  - intros fuel. apply only_reads_writes, dry_run_only_reads. constructor.
Qed.

(** C10.  With [dry_run = true] the [failed] branch is unreachable: the body
    of the [try] sends nothing and raises nothing; a round that adds a row
    adds one whose action is [created] or [updated] and whose error is
    empty; and so is every row of the report a dry run writes. *)
Theorem dry_run_never_fails :
  forall (source : string -> nat -> reply) (dest : list exchange -> request -> reply)
         (clock : nat -> string) (collection match_field : string),
    (forall existing update_doc_id post_payload st,
        upsert source dest collection true existing update_doc_id post_payload st =
        (Returned (if truthy existing then updated else created), st))
    /\
    (forall entry report_rows st rows' st',
        migrate_entry source dest clock collection match_field true entry report_rows st =
          (Returned rows', st') ->
        exists r, rows' = report_rows ++ [r] /\
                  (row_action r = created \/ row_action r = updated) /\
                  row_error r = empty_text)
    /\
    (forall fuel out st' rows,
        migrate_collection source dest clock fuel collection match_field true initial =
          (out, st') ->
        report_file st' = Some rows ->
        Forall (fun r => (row_action r = created \/ row_action r = updated) /\
                         row_error r = empty_text) rows).
Proof.
  intros source dest clock collection match_field.
  assert (Hround : forall entry report_rows st rows' st',
             migrate_entry source dest clock collection match_field true entry report_rows st =
               (Returned rows', st') ->
             exists r, rows' = report_rows ++ [r] /\
                       (row_action r = created \/ row_action r = updated) /\
                       row_error r = empty_text).
  { intros entry report_rows st rows' st' Hrun.
    destruct (migrate_entry_cases source dest clock collection match_field
                true entry report_rows st)
      as [(e & _ & H) | [(payload & e & _ & _ & H) | (payload & existing & r & st2 & _ & _ & H & _ & _ & _ & Hr)]];
      rewrite H in Hrun; try discriminate Hrun.
    injection Hrun as <- _. exists r. split; [reflexivity |].
    rewrite Hr. unfold prospective. cbn.
    destruct (truthy existing); auto. }
  split; [| split].
  - intros. apply upsert_dry_run.
  - exact Hround.
  - intros fuel out st' rows Hrun Hfile.
    rewrite migrate_collection_eq in Hrun.
    pose proof (fetch_entries_writes_no_report source dest collection match_field
                  fuel initial) as Hf.
    destruct (fetch_entries _ _ _ _ _ initial) as [[entries | e |] st1];
      cbn [snd] in Hf;
      try (injection Hrun as _ <-; rewrite Hf in Hfile; discriminate Hfile).
    pose proof (migrate_entries_writes_no_report source dest clock collection
                  match_field true entries [] st1) as Hm.
    destruct (migrate_entries _ _ _ _ _ _ _ _ st1) as [[report | e |] st2] eqn:Hloop;
      cbn [snd] in Hm;
      try (injection Hrun as _ <-; rewrite Hm, Hf in Hfile; discriminate Hfile).
    injection Hrun as _ <-. cbn in Hfile. injection Hfile as <-.
    clear Hf Hm.
    assert (Hgen : forall es acc st rows st',
               Forall (fun r => (row_action r = created \/ row_action r = updated) /\
                                row_error r = empty_text) acc ->
               migrate_entries source dest clock collection match_field true es acc st =
                 (Returned rows, st') ->
               Forall (fun r => (row_action r = created \/ row_action r = updated) /\
                                row_error r = empty_text) rows).
    { clear Hloop. intros es.
      induction es as [| entry rest IH]; intros acc st rows st' Hacc Hrun.
      - injection Hrun as <- _. exact Hacc.
      - rewrite migrate_entries_cons in Hrun.
        destruct (migrate_entry _ _ _ _ _ _ entry acc st) as [[mid | e |] sm] eqn:Hr;
          try discriminate Hrun.
        apply Hround in Hr. destruct Hr as (r & -> & Hact & Herr).
        eapply IH; [| exact Hrun].
        apply Forall_app; split; [exact Hacc |]. constructor; [split; assumption | constructor]. }
    eapply Hgen; [constructor | exact Hloop].
Qed.

(** C3, as the module has it.  For every entry processed with
    [dry_run = false] (its payload fields present, its lookup answered), the
    round sends exactly one write after the lookup: the PUT to
    [{collection}/{documentId}] when the lookup found a match, and never a
    POST; the POST to [{collection}] when it found none, and never a PUT.  It
    does so whatever the destination answers, and goes on with a row. *)
Theorem live_round_sends_one_write :
  forall (source : string -> nat -> reply) (dest : list exchange -> request -> reply)
         (clock : nat -> string) (collection match_field : string)
         (entry : dict) (report_rows : list report_row) (st : state)
         (payload : dict) (existing : value) (st1 : state),
    sanitize_payload entry = Returned payload ->
    find_existing_entry source dest collection match_field
      (Dict.get match_field entry) st = (Returned existing, st1) ->
    exists r answer,
      migrate_entry source dest clock collection match_field false entry report_rows st =
      (Returned (report_rows ++ [r]),
       sent st1
         [(if truthy existing
           then PUT_dest collection (doc_id_of existing) (VDict [("data", VDict payload)])
           else POST_dest collection (VDict [("data", VDict payload)]),
           answer)]).
Proof.
  intros source dest clock collection match_field entry report_rows st
         payload existing st1 Hp Hf.
  pose proof (migrate_entry_live source dest clock collection match_field
                entry report_rows st payload existing st1 Hp Hf) as Hl.
  cbv zeta in Hl. unfold write_request, post_payload_of in Hl.
  destruct (truthy existing); eexists; eexists; exact Hl.
Qed.

(** C1, as the module has it.  For every entry processed with
    [dry_run = false] whose lookup was answered: if the create or update call
    is answered with an error status (500, or any from 400 to 599), the
    round adds the row [{entry: match value, action: "failed", error: the
    message of the HTTPError}], and the loop goes on to the next entry. *)
Theorem failed_write_is_recorded_and_run_goes_on :
  forall (source : string -> nat -> reply) (dest : list exchange -> request -> reply)
         (clock : nat -> string) (collection match_field : string)
         (entry : dict) (rest : list dict) (report_rows : list report_row)
         (st : state) (payload : dict) (existing : value) (st1 : state)
         (s : Z) (b : option value),
    sanitize_payload entry = Returned payload ->
    find_existing_entry source dest collection match_field
      (Dict.get match_field entry) st = (Returned existing, st1) ->
    dest (trace st1) (write_request collection existing payload) = Response s b ->
    error_status s = true ->
    let failed_row :=
      {| row_entry := Dict.get match_field entry;
         row_action := failed;
         row_error := str_of (HTTPError s);
         row_timestamp := clock (length report_rows);
         row_dry_run := false |} in
    let st2 := sent st1 [(write_request collection existing payload, Response s b)] in
    migrate_entry source dest clock collection match_field false entry report_rows st =
      (Returned (report_rows ++ [failed_row]), st2)
    /\
    migrate_entries source dest clock collection match_field false
      (entry :: rest) report_rows st =
    migrate_entries source dest clock collection match_field false
      rest (report_rows ++ [failed_row]) st2.
Proof.
  intros source dest clock collection match_field entry rest report_rows st
         payload existing st1 s b Hp Hf Hans Hs.
  cbv zeta.
  pose proof (migrate_entry_live source dest clock collection match_field
                entry report_rows st payload existing st1 Hp Hf) as Hl.
  cbv zeta in Hl. rewrite Hans in Hl.
  unfold delivered, raise_for_status in Hl. cbn [status_code] in Hl.
  unfold error_status in Hs. rewrite Hs in Hl.
  split.
  - exact Hl.
  - rewrite migrate_entries_cons, Hl. reflexivity.
Qed.

(** C4.  For every run that reaches the report-writing step, the report has
    exactly one row per fetched entry: the rows the loop over the entries
    hands to the writer are as many as the entries the fetch phase returned,
    the n-th row being that of the n-th entry, whether its write got through
    or failed; and when the run returns, these rows are the content of the
    report file. *)
Theorem one_row_per_fetched_entry :
  forall (source : string -> nat -> reply) (dest : list exchange -> request -> reply)
         (clock : nat -> string) (fuel : nat) (collection match_field : string)
         (dry_run : bool) (entries : list dict) (st1 : state)
         (report_rows : list report_row) (st2 : state),
    fetch_entries source dest fuel collection match_field initial =
      (Returned entries, st1) ->
    migrate_entries source dest clock collection match_field dry_run entries [] st1 =
      (Returned report_rows, st2) ->
    (length report_rows = length entries /\
     map row_entry report_rows = map (Dict.get match_field) entries)
    /\
    (forall st,
        migrate_collection source dest clock fuel collection match_field dry_run initial =
          (Returned tt, st) ->
        report_file st = Some report_rows).
Proof.
  intros source dest clock fuel collection match_field dry_run entries st1
         report_rows st2 Hfetch Hloop.
  split.
  - apply migrate_entries_rows in Hloop. destruct Hloop as (added & -> & Hadded).
    cbn [app]. split; [| exact Hadded].
    rewrite <- (length_map row_entry), Hadded, length_map. reflexivity.
  - intros st Hrun.
    rewrite migrate_collection_eq, Hfetch, Hloop in Hrun.
    injection Hrun as <-. reflexivity.
Qed.

Lemma sanitize_payload_lacks entry :
  lacks_payload_field entry = true ->
  exists k, (k = "agendaFormatName" \/ k = "agendaFormatOrder") /\
            sanitize_payload entry = Raised (KeyError (VStr k)).
Proof.
  unfold lacks_payload_field, Dict.mem, sanitize_payload, subscript.
  destruct (Dict.lookup "agendaFormatName" entry); cbn [and_then negb orb].
  - destruct (Dict.lookup "agendaFormatOrder" entry); cbn [and_then negb];
      [discriminate |].
    intros _. exists "agendaFormatOrder". split; [right |]; reflexivity.
  - intros _. exists "agendaFormatName". split; [left |]; reflexivity.
Qed.

Lemma migrate_entries_abort source dest clock collection match_field dry_run
    entry e0 entries :
  In entry entries ->
  sanitize_payload entry = Raised e0 ->
  forall report_rows st,
  exists e st2,
    migrate_entries source dest clock collection match_field dry_run
      entries report_rows st = (Raised e, st2).
Proof.
  intros Hin Hs. induction entries as [| x rest IH]; [destruct Hin |].
  intros report_rows st. rewrite migrate_entries_cons.
  pose proof (migrate_entry_no_timeout source dest clock collection match_field
                dry_run x report_rows st) as Hnt.
  destruct (migrate_entry _ _ _ _ _ _ x report_rows st) as [[rows' | e |] st'] eqn:Hround.
  - destruct Hin as [-> | Hin].
    + rewrite (migrate_entry_sanitize_raises source dest clock collection
                 match_field dry_run entry report_rows st e0 Hs) in Hround.
      discriminate Hround.
    + apply IH; exact Hin.
  - exists e, st'. reflexivity.
  - exfalso; apply Hnt; reflexivity.
Qed.

(** C8.  For every fetched entry that lacks the key ["agendaFormatName"] or
    the key ["agendaFormatOrder"], [sanitize_payload] raises a KeyError for
    the missing key; the round of that entry raises it before anything is
    sent, outside the [try]; and the run, dry or not, ends with an exception
    and writes no report file. *)
Theorem missing_payload_field_aborts_run :
  forall (source : string -> nat -> reply) (dest : list exchange -> request -> reply)
         (clock : nat -> string) (fuel : nat) (collection match_field : string)
         (dry_run : bool) (entry : dict) (entries : list dict) (st1 : state),
    lacks_payload_field entry = true ->
    fetch_entries source dest fuel collection match_field initial =
      (Returned entries, st1) ->
    In entry entries ->
    (exists k,
        (k = "agendaFormatName" \/ k = "agendaFormatOrder") /\
        sanitize_payload entry = Raised (KeyError (VStr k)) /\
        forall report_rows st,
          migrate_entry source dest clock collection match_field dry_run
            entry report_rows st = (Raised (KeyError (VStr k)), st))
    /\
    (exists e st2,
        migrate_collection source dest clock fuel collection match_field dry_run initial =
          (Raised e, st2) /\
        report_file st2 = None).
Proof.
  intros source dest clock fuel collection match_field dry_run entry entries st1
         Hlacks Hfetch Hin.
  destruct (sanitize_payload_lacks entry Hlacks) as (k & Hk & Hs).
  split.
  - exists k. split; [exact Hk |]. split; [exact Hs |].
    intros report_rows st. apply migrate_entry_sanitize_raises; exact Hs.
  - destruct (migrate_entries_abort source dest clock collection match_field
                dry_run entry _ entries Hin Hs [] st1) as (e & st2 & Hloop).
    exists e, st2. split.
    + rewrite migrate_collection_eq, Hfetch, Hloop. reflexivity.
    + pose proof (migrate_entries_writes_no_report source dest clock collection
                    match_field dry_run entries [] st1) as Hm.
      rewrite Hloop in Hm. cbn in Hm. rewrite Hm.
      pose proof (fetch_entries_writes_no_report source dest collection match_field
                    fuel initial) as Hf.
      rewrite Hfetch in Hf. exact Hf.
Qed.

(** ** Reads answered with an error status *)

Lemma fetch_page_error_status match_field s b entries :
  error_status s = true ->
  fetch_page match_field (Response s b) entries = Raised (HTTPError s).
Proof.
  intros Hs. unfold fetch_page, raise_for_status. cbn [status_code].
  unfold error_status in Hs. rewrite Hs. reflexivity.
Qed.

Lemma existing_of_error_status s b :
  error_status s = true -> existing_of (Response s b) = Raised (HTTPError s).
Proof.
  intros Hs. unfold existing_of, raise_for_status. cbn [status_code].
  unfold error_status in Hs. rewrite Hs. reflexivity.
Qed.

Lemma quiet_reads_raise {A} (out : outcome A) tr : quiet tr -> reads_raise out tr.
Proof.
  intros Hq req s b Hin Hget Hs. rewrite (Hq req s b Hin Hget) in Hs. discriminate Hs.
Qed.

Lemma reads_raise_returned {A} (a : A) tr : reads_raise (Returned a) tr -> quiet tr.
Proof.
  intros Hr req s b Hin Hget. destruct (error_status s) eqn:Hs; [| reflexivity].
  discriminate (Hr req s b Hin Hget Hs).
Qed.

Lemma quiet_sent st req r :
  quiet (trace st) ->
  (is_get req = true -> forall s b, r = Response s b -> error_status s = false) ->
  quiet (trace (sent st [(req, r)])).
Proof.
  intros Hq Hr req' s b Hin Hget. unfold sent in Hin; cbn [trace] in Hin.
  apply in_app_or in Hin. destruct Hin as [Hin | [Heq | []]].
  - exact (Hq req' s b Hin Hget).
  - injection Heq as -> ->. exact (Hr Hget s b eq_refl).
Qed.

Lemma reads_raise_sent {A} (out : outcome A) st req r :
  quiet (trace st) ->
  (forall s b, r = Response s b -> error_status s = true -> out = Raised (HTTPError s)) ->
  reads_raise out (trace (sent st [(req, r)])).
Proof.
  intros Hq Hr req' s b Hin Hget Hs. unfold sent in Hin; cbn [trace] in Hin.
  apply in_app_or in Hin. destruct Hin as [Hin | [Heq | []]].
  - rewrite (Hq req' s b Hin Hget) in Hs. discriminate Hs.
  - injection Heq as -> ->. exact (Hr s b eq_refl Hs).
Qed.

Section ReadErrors.

Variable source : string -> nat -> reply.
Variable dest : list exchange -> request -> reply.
Variable clock : nat -> string.
Variable collection match_field : string.

Lemma fetch_pages_reads_raise : forall fuel page entries st,
  quiet (trace st) ->
  reads_raise (fst (fetch_pages source dest fuel collection match_field page entries st))
              (trace (snd (fetch_pages source dest fuel collection match_field page entries st))).
Proof.
  induction fuel as [| fuel IH]; intros page entries st Hq.
  - apply quiet_reads_raise; exact Hq.
  - rewrite fetch_pages_round. cbv zeta. unfold pages; cbn [seq map].
    destruct (source collection page) as [s b | msg] eqn:Hr.
    + destruct (error_status s) eqn:Hs.
      * rewrite (fetch_page_error_status _ _ _ _ Hs). cbn [fst snd].
        apply reads_raise_sent; [exact Hq |].
        intros s' b' Heq _. congruence.
      * assert (Hq' : quiet (trace (sent st [(GET_source collection page, Response s b)]))).
        { apply quiet_sent; [exact Hq |]. intros _ s' b' Heq.
          replace s' with s by congruence. exact Hs. }
        destruct (fetch_page match_field (Response s b) entries) as [[entries' |] | e |];
          cbn [fst snd]; try (apply quiet_reads_raise; exact Hq').
        apply IH; exact Hq'.
    + assert (Hq' : quiet (trace (sent st [(GET_source collection page, Unreachable msg)]))).
      { apply quiet_sent; [exact Hq |]. intros _ s' b'; discriminate. }
      cbn [fetch_page fst snd]. apply quiet_reads_raise; exact Hq'.
Qed.

Lemma migrate_entry_reads_raise dry_run entry report_rows st :
  quiet (trace st) ->
  reads_raise (fst (migrate_entry source dest clock collection match_field
                      dry_run entry report_rows st))
              (trace (snd (migrate_entry source dest clock collection match_field
                             dry_run entry report_rows st))).
Proof.
  intros Hq.
  destruct (migrate_entry_cases source dest clock collection match_field
              dry_run entry report_rows st)
    as [(e & _ & H) | [(payload & e & _ & Hf & H) | (payload & existing & r & st2 & _ & Hf & H & _ & _ & Hst)]];
    rewrite H; cbn [fst snd].
  - apply quiet_reads_raise; exact Hq.
  - rewrite find_existing_entry_eq in Hf. cbv zeta in Hf. injection Hf as Hex.
    apply reads_raise_sent; [exact Hq |].
    intros s b Hr Hs. unfold lookup_request in Hr. rewrite Hr in Hex.
    rewrite (existing_of_error_status _ _ Hs) in Hex. congruence.
  - apply quiet_reads_raise.
    rewrite find_existing_entry_eq in Hf. cbv zeta in Hf. injection Hf as Hex.
    assert (Hq1 : quiet (trace (sent st
                    [(lookup_request collection match_field entry,
                      dest (trace st) (lookup_request collection match_field entry))]))).
    { apply quiet_sent; [exact Hq |]. intros _ s b Hr.
      destruct (error_status s) eqn:Hs; [| reflexivity].
      unfold lookup_request in Hr. rewrite Hr in Hex.
      rewrite (existing_of_error_status _ _ Hs) in Hex. discriminate Hex. }
    destruct dry_run.
    + destruct Hst as [-> _]. exact Hq1.
    + cbv zeta in Hst. destruct Hst as [-> _].
      apply quiet_sent; [exact Hq1 |].
      intros Hget. exfalso. revert Hget. unfold write_request.
      destruct (truthy existing); discriminate.
Qed.

Lemma migrate_entries_reads_raise dry_run entries : forall report_rows st,
  quiet (trace st) ->
  reads_raise (fst (migrate_entries source dest clock collection match_field
                      dry_run entries report_rows st))
              (trace (snd (migrate_entries source dest clock collection match_field
                             dry_run entries report_rows st))).
Proof.
  induction entries as [| entry rest IH]; intros report_rows st Hq.
  - apply quiet_reads_raise; exact Hq.
  - rewrite migrate_entries_cons.
    pose proof (migrate_entry_reads_raise dry_run entry report_rows st Hq) as H1.
    destruct (migrate_entry _ _ _ _ _ _ entry report_rows st) as [[rows' | e |] st1];
      cbn [fst snd] in H1 |- *; try exact H1.
    apply IH. eapply reads_raise_returned; exact H1.
Qed.

End ReadErrors.

(** C2, as the module has it.  For every run, a response with an error
    status (400 to 599, the statuses on which [raise_for_status] raises) to a
    source page request or to a destination lookup raises an HTTPError that
    nothing catches: the run ends with that exception, and no report file is
    written, not even a partial one. *)
Theorem read_error_aborts_run_without_report :
  forall (source : string -> nat -> reply) (dest : list exchange -> request -> reply)
         (clock : nat -> string) (fuel : nat) (collection match_field : string)
         (dry_run : bool) (out : outcome unit) (st : state)
         (req : request) (s : Z) (b : option value),
    migrate_collection source dest clock fuel collection match_field dry_run initial =
      (out, st) ->
    In (req, Response s b) (trace st) ->
    is_get req = true ->
    error_status s = true ->
    out = Raised (HTTPError s) /\ report_file st = None.
Proof.
  intros source dest clock fuel collection match_field dry_run out st req s b
         Hrun Hin Hget Hs.
  rewrite migrate_collection_eq in Hrun.
  assert (Hq0 : quiet (trace initial)) by (intros ? ? ? []).
  pose proof (fetch_pages_reads_raise source dest collection match_field
                fuel 1 [] initial Hq0) as Hfetch.
  fold (fetch_entries source dest fuel collection match_field) in Hfetch.
  pose proof (fetch_entries_writes_no_report source dest collection match_field
                fuel initial) as Hf.
  destruct (fetch_entries _ _ _ _ _ initial) as [[entries | e |] st1];
    cbn [fst snd] in Hfetch, Hf.
  - pose proof (migrate_entries_reads_raise source dest clock collection match_field
                  dry_run entries [] st1 (reads_raise_returned _ _ Hfetch)) as Hloop.
    pose proof (migrate_entries_writes_no_report source dest clock collection
                  match_field dry_run entries [] st1) as Hm.
    destruct (migrate_entries _ _ _ _ _ _ _ _ st1) as [[rows | e |] st2];
      cbn [fst snd] in Hloop, Hm; injection Hrun as <- <-.
    + discriminate (Hloop req s b Hin Hget Hs).
    + split; [pose proof (Hloop req s b Hin Hget Hs); congruence | rewrite Hm; exact Hf].
    + discriminate (Hloop req s b Hin Hget Hs).
  - injection Hrun as <- <-.
    split; [pose proof (Hfetch req s b Hin Hget Hs); congruence | exact Hf].
  - injection Hrun as <- <-. discriminate (Hfetch req s b Hin Hget Hs).
Qed.

(** ** A destination record without a document id *)

Lemma existing_of_without_document_id s parsed first others :
  error_status s = false ->
  Dict.get_default "data" (VList []) parsed = VList (VDict first :: others) ->
  lacks_document_id first = true ->
  existing_of (Response s (Some (VDict parsed))) = Returned (VDict [("documentId", VNone)]).
Proof.
  intros Hs Hdata Hlacks.
  unfold existing_of, raise_for_status. cbn [status_code].
  unfold error_status in Hs. rewrite Hs. cbn [and_then res_json body].
  unfold get_data. cbn [method_get and_then]. rewrite Hdata.
  cbn [truthy first_item and_then is_dict method_get].
  unfold lacks_document_id in Hlacks. unfold Dict.get_default at 1.
  destruct (Dict.lookup "attributes" first) as [[| ? | ? | ? | ? | ? | a] |];
    try discriminate Hlacks; cbn [method_get and_then].
  - unfold Dict.mem in Hlacks. unfold Dict.get_default.
    destruct (Dict.lookup "documentId" a); [discriminate Hlacks | reflexivity].
  - reflexivity.
Qed.

(** C9, as the module has it.  When the lookup is answered with a non-empty
    list whose first element is a mapping without [attributes.documentId] (no
    ["attributes"], or an ["attributes"] mapping without ["documentId"]),
    [find_existing_entry] returns [{"documentId": None}]; this value is
    truthy and selects the update branch, so that with [dry_run = false] the
    executor sends a PUT to [{collection}/None] instead of creating the
    entry, and with [dry_run = true] it records [updated] and sends
    nothing. *)
Theorem missing_document_id_puts_to_none :
  forall (SOURCE_API DEST_API : string)
         (source : string -> nat -> reply) (dest : list exchange -> request -> reply)
         (clock : nat -> string) (collection match_field : string)
         (entry : dict) (report_rows : list report_row) (st : state)
         (payload : dict) (s : Z) (parsed first : dict) (others : list value),
    sanitize_payload entry = Returned payload ->
    dest (trace st) (lookup_request collection match_field entry) =
      Response s (Some (VDict parsed)) ->
    error_status s = false ->
    Dict.get_default "data" (VList []) parsed = VList (VDict first :: others) ->
    lacks_document_id first = true ->
    let st1 := sent st [(lookup_request collection match_field entry,
                         Response s (Some (VDict parsed)))] in
    let put := PUT_dest collection VNone (VDict [("data", VDict payload)]) in
    find_existing_entry source dest collection match_field
      (Dict.get match_field entry) st =
      (Returned (VDict [("documentId", VNone)]), st1)
    /\ truthy (VDict [("documentId", VNone)]) = true
    /\ (exists r answer,
          migrate_entry source dest clock collection match_field false entry report_rows st =
          (Returned (report_rows ++ [r]), sent st1 [(put, answer)]))
    /\ url SOURCE_API DEST_API put = Some (DEST_API ++ "/api/" ++ collection ++ "/None")%string
    /\ migrate_entry source dest clock collection match_field true entry report_rows st =
       (Returned (report_rows ++
          [{| row_entry := Dict.get match_field entry;
              row_action := updated;
              row_error := empty_text;
              row_timestamp := clock (length report_rows);
              row_dry_run := true |}]), st1).
Proof.
  intros SOURCE_API DEST_API source dest clock collection match_field entry
         report_rows st payload s parsed first others Hp Hans Hs Hdata Hlacks.
  cbv zeta.
  assert (Hf : find_existing_entry source dest collection match_field
                 (Dict.get match_field entry) st =
               (Returned (VDict [("documentId", VNone)]),
                sent st [(lookup_request collection match_field entry,
                          Response s (Some (VDict parsed)))])).
  { rewrite find_existing_entry_eq. cbv zeta.
    fold (lookup_request collection match_field entry). rewrite Hans.
    rewrite (existing_of_without_document_id _ _ _ _ Hs Hdata Hlacks). reflexivity. }
  split; [exact Hf |]. split; [reflexivity |]. split; [| split].
  - pose proof (migrate_entry_live source dest clock collection match_field
                  entry report_rows st payload _ _ Hp Hf) as Hl.
    cbv zeta in Hl. eexists; eexists. exact Hl.
  - reflexivity.
  - exact (migrate_entry_dry_run source dest clock collection match_field
             entry report_rows st payload _ _ Hp Hf).
Qed.

(** ** The theorems at work on concrete runs *)

Import Scenario.

Lemma failed_write_is_recorded_and_run_goes_on_witness :
  migrate_entry (one_page [keynote; workshop]) (destination no_match server_error)
    clock "agenda" "title" false entry_A [] initial =
    (Returned [report "A" failed (str_of (HTTPError 500)) false],
     sent (sent initial [(lookup_A, no_match)]) [(post_A, server_error)])
  /\
  migrate_entries (one_page [keynote; workshop]) (destination no_match server_error)
    clock "agenda" "title" false [entry_A; entry_B] [] initial =
  migrate_entries (one_page [keynote; workshop]) (destination no_match server_error)
    clock "agenda" "title" false [entry_B]
    [report "A" failed (str_of (HTTPError 500)) false]
    (sent (sent initial [(lookup_A, no_match)]) [(post_A, server_error)]).
Proof.
  apply (failed_write_is_recorded_and_run_goes_on
           (one_page [keynote; workshop]) (destination no_match server_error)
           clock "agenda" "title" entry_A [entry_B] [] initial payload_A VNone
           (sent initial [(lookup_A, no_match)]) 500 None);
    reflexivity.
Defined.

(** C1 as stated fails: with two entries fetched and a destination that
    answers the lookup of the first with status 500, the run ends with the
    HTTPError, no row is recorded, no report is written, and the second
    entry is never looked up. *)
Lemma lookup_error_is_not_recorded :
  migrate_collection (one_page [keynote; workshop])
    (destination server_error (ok (VDict []))) clock 5 "agenda" "title" false initial =
  (Raised (HTTPError 500),
   {| trace := pages (one_page [keynote; workshop]) "agenda" 1 2
               ++ [(lookup_A, Response 500 None)];
      report_file := None |}).
Proof. vm_compute. reflexivity. Qed.

Lemma read_error_aborts_run_without_report_witness :
  fst (migrate_collection failing_source (destination no_match (ok (VDict [])))
         clock 5 "agenda" "title" false initial) = Raised (HTTPError 500)
  /\
  report_file (snd (migrate_collection failing_source (destination no_match (ok (VDict [])))
                      clock 5 "agenda" "title" false initial)) = None.
Proof.
  apply (read_error_aborts_run_without_report
           failing_source (destination no_match (ok (VDict []))) clock 5
           "agenda" "title" false _ _ (GET_source "agenda" 2) 500 None).
  - apply surjective_pairing.
  - vm_compute. right; left; reflexivity.
  - reflexivity.
  - reflexivity.
Defined.

(** C2 as stated fails: status 300 is not a 2xx status, and
    [raise_for_status] does not raise on it.  A source that answers the first
    page so, with an empty JSON object, ends the pagination: the run returns
    and writes an (empty) report.  A destination that answers the lookup so
    is taken to have no match: the entry is created and the report
    written. *)
Lemma redirect_status_does_not_abort :
  ((200 <=? 300) && (300 <? 300))%Z = false
  /\
  migrate_collection redirecting_source (destination no_match (ok (VDict [])))
    clock 5 "agenda" "title" false initial =
  (Returned tt,
   {| trace := [(GET_source "agenda" 1, Response 300 (Some (VDict [])))];
      report_file := Some [] |})
  /\
  migrate_collection (one_page [keynote])
    (destination (Response 300 (Some (VDict []))) (ok (VDict [])))
    clock 5 "agenda" "title" false initial =
  (Returned tt,
   {| trace := pages (one_page [keynote]) "agenda" 1 2
               ++ [(lookup_A, Response 300 (Some (VDict [])));
                   (post_A, ok (VDict []))];
      report_file := Some [report "A" created empty_text false] |}).
Proof. repeat split; vm_compute; reflexivity. Qed.

Lemma live_round_sends_one_write_witness :
  exists r answer,
    migrate_entry (one_page [keynote]) (destination match_doc123 (ok (VDict [])))
      clock "agenda" "title" false entry_A [] initial =
    (Returned [r],
     sent (sent initial [(lookup_A, match_doc123)])
          [(put_A (VStr "doc123"), answer)]).
Proof.
  apply (live_round_sends_one_write
           (one_page [keynote]) (destination match_doc123 (ok (VDict [])))
           clock "agenda" "title" entry_A [] initial payload_A
           (VDict [("documentId", VStr "doc123")])
           (sent initial [(lookup_A, match_doc123)]));
    reflexivity.
Defined.

(** C3 as stated fails: in a dry run, an entry whose lookup finds the match
    "doc123" is recorded as [updated], and the only request of its round is
    the lookup; no PUT is sent. *)
Lemma dry_run_with_match_sends_no_update :
  find_existing_entry (one_page [keynote]) (destination match_doc123 (ok (VDict [])))
    "agenda" "title" (VStr "A") initial =
    (Returned (VDict [("documentId", VStr "doc123")]),
     sent initial [(lookup_A, match_doc123)])
  /\
  migrate_entry (one_page [keynote]) (destination match_doc123 (ok (VDict [])))
    clock "agenda" "title" true entry_A [] initial =
    (Returned [report "A" updated empty_text true],
     sent initial [(lookup_A, match_doc123)])
  /\
  writes (trace (snd (migrate_collection (one_page [keynote])
                        (destination match_doc123 (ok (VDict [])))
                        clock 5 "agenda" "title" true initial))) = [].
Proof. repeat split; vm_compute; reflexivity. Qed.

Lemma one_row_per_fetched_entry_witness :
  (length [report "A" failed (str_of (HTTPError 500)) false;
           report "B" failed (str_of (HTTPError 500)) false]
   = length [entry_A; entry_B]
   /\
   map row_entry [report "A" failed (str_of (HTTPError 500)) false;
                  report "B" failed (str_of (HTTPError 500)) false]
   = map (Dict.get "title") [entry_A; entry_B])
  /\
  (forall st,
      migrate_collection (one_page [keynote; workshop]) (destination no_match server_error)
        clock 5 "agenda" "title" false initial = (Returned tt, st) ->
      report_file st = Some [report "A" failed (str_of (HTTPError 500)) false;
                             report "B" failed (str_of (HTTPError 500)) false]).
Proof.
  eapply (one_row_per_fetched_entry
            (one_page [keynote; workshop]) (destination no_match server_error)
            clock 5 "agenda" "title" false [entry_A; entry_B]);
    vm_compute; reflexivity.
Defined.

Lemma dry_run_sends_no_write_witness :
  migrate_entry (one_page [keynote]) (destination match_doc123 (ok (VDict [])))
    clock "agenda" "title" true entry_A [] initial =
    (Returned [report "A" updated empty_text true],
     sent initial [(lookup_A, match_doc123)])
  /\
  writes (trace (sent initial [(lookup_A, match_doc123)])) = writes (trace initial).
Proof.
  destruct (dry_run_sends_no_write
              (one_page [keynote]) (destination match_doc123 (ok (VDict [])))
              clock "agenda" "title" entry_A [] initial payload_A
              (VDict [("documentId", VStr "doc123")])
              (sent initial [(lookup_A, match_doc123)])
              eq_refl eq_refl) as (Hrow & Hwrites & _).
  split; [exact Hrow | exact Hwrites].
Defined.

Lemma blank_match_field_is_skipped_witness :
  fetch_record "title" untitled [entry_A] = Returned [entry_A]
  /\
  fetch_records "title" [keynote; untitled; workshop] [] =
  fetch_records "title" [keynote; workshop] [].
Proof.
  destruct (blank_match_field_is_skipped "title" untitled eq_refl eq_refl)
    as [Hskip Hpage].
  split; [apply Hskip | apply (Hpage [keynote] [workshop] [])].
Defined.

Lemma pagination_stops_at_first_empty_page_witness :
  (exists entries,
      fetch_entries (one_page [keynote; workshop]) (destination no_match no_match)
        2 "agenda" "title" initial =
      (Returned entries, fetched [keynote; workshop]))
  /\
  (exists n,
      1 <= n <= 5 /\
      page_view "title" (one_page [keynote; workshop] "agenda" n) = Returned None /\
      (forall k, 1 <= k < n ->
         exists new,
           page_view "title" (one_page [keynote; workshop] "agenda" k) =
           Returned (Some new)) /\
      fetched [keynote; workshop] =
      sent initial (pages (one_page [keynote; workshop]) "agenda" 1 n)).
Proof.
  destruct (pagination_stops_at_first_empty_page
              (one_page [keynote; workshop]) (destination no_match no_match)
              "agenda" "title") as [Hstops Honly].
  split.
  - apply (Hstops 2 2 initial).
    + lia.
    + intros k Hk. assert (k = 1) as -> by lia. eexists. reflexivity.
    + reflexivity.
  - apply (Honly 5 initial [entry_A; entry_B]). reflexivity.
Defined.

Lemma missing_payload_field_aborts_run_witness :
  (exists k,
      (k = "agendaFormatName" \/ k = "agendaFormatOrder") /\
      sanitize_payload entry_C = Raised (KeyError (VStr k)) /\
      forall report_rows st,
        migrate_entry (one_page [keynote; bare]) (destination no_match (ok (VDict [])))
          clock "agenda" "title" true entry_C report_rows st =
        (Raised (KeyError (VStr k)), st))
  /\
  (exists e st2,
      migrate_collection (one_page [keynote; bare]) (destination no_match (ok (VDict [])))
        clock 5 "agenda" "title" true initial = (Raised e, st2) /\
      report_file st2 = None).
Proof.
  apply (missing_payload_field_aborts_run
           (one_page [keynote; bare]) (destination no_match (ok (VDict [])))
           clock 5 "agenda" "title" true entry_C [entry_A; entry_C]
           (fetched [keynote; bare])).
  - reflexivity.
  - reflexivity.
  - right; left; reflexivity.
Defined.

Lemma missing_document_id_puts_to_none_witness :
  find_existing_entry (one_page [keynote])
    (destination match_without_document_id (ok (VDict [])))
    "agenda" "title" (VStr "A") initial =
    (Returned (VDict [("documentId", VNone)]),
     sent initial [(lookup_A, match_without_document_id)])
  /\
  (exists r answer,
      migrate_entry (one_page [keynote])
        (destination match_without_document_id (ok (VDict [])))
        clock "agenda" "title" false entry_A [] initial =
      (Returned [r],
       sent (sent initial [(lookup_A, match_without_document_id)])
            [(put_A VNone, answer)]))
  /\
  url "http://source" "http://dest" (put_A VNone) = Some "http://dest/api/agenda/None".
Proof.
  destruct (missing_document_id_puts_to_none
              "http://source" "http://dest"
              (one_page [keynote])
              (destination match_without_document_id (ok (VDict [])))
              clock "agenda" "title" entry_A [] initial payload_A 200
              [("data", VList [VDict [("id", VInt 9); ("documentId", VStr "doc123");
                                      ("title", VStr "A")]])]
              [("id", VInt 9); ("documentId", VStr "doc123"); ("title", VStr "A")]
              [] eq_refl eq_refl eq_refl eq_refl eq_refl)
    as (Hfound & _ & Hput & Hurl & _).
  split; [exact Hfound | split; [exact Hput | exact Hurl]].
Defined.

(** C9 as stated fails in two ways.  In a dry run the record without a
    document id selects the update branch, but no PUT is sent: the only
    request of the round is the lookup.  And a first element whose
    ["attributes"] is null has no [attributes.documentId] either, yet
    [find_existing_entry] raises on it instead of returning. *)
Lemma missing_document_id_without_put :
  migrate_entry (one_page [keynote])
    (destination match_without_document_id (ok (VDict [])))
    clock "agenda" "title" true entry_A [] initial =
    (Returned [report "A" updated empty_text true],
     sent initial [(lookup_A, match_without_document_id)])
  /\
  find_existing_entry (one_page [keynote])
    (destination match_with_null_attributes (ok (VDict [])))
    "agenda" "title" (VStr "A") initial =
    (Raised AttributeError,
     sent initial [(lookup_A, match_with_null_attributes)]).
Proof. split; vm_compute; reflexivity. Qed.

Lemma dry_run_never_fails_witness :
  (exists r,
      [report "A" created empty_text true] = [] ++ [r] /\
      (row_action r = created \/ row_action r = updated) /\
      row_error r = empty_text)
  /\
  Forall (fun r => (row_action r = created \/ row_action r = updated) /\
                   row_error r = empty_text)
         [report "A" created empty_text true; report "B" created empty_text true].
Proof.
  destruct (dry_run_never_fails
              (one_page [keynote; workshop]) (destination no_match server_error)
              clock "agenda" "title") as (_ & Hround & Hrun).
  split.
  - eapply (Hround entry_A [] initial). vm_compute. reflexivity.
  - eapply (Hrun 5).
    + apply surjective_pairing.
    + vm_compute. reflexivity.
Defined.

(** * Further properties of the module *)

(** ** The fetcher: order, shape of the entries, malformed records *)

Section FetchOrder.

Variable source : string -> nat -> reply.
Variable dest : list exchange -> request -> reply.
Variable collection match_field : string.

Lemma fetch_records_split xs : forall ys entries,
  fetch_records match_field (xs ++ ys) entries =
  and_then (fetch_records match_field xs entries)
           (fun mid => fetch_records match_field ys mid).
Proof.
  induction xs as [| x xs IH]; intros ys entries; simpl.
  - reflexivity.
  - destruct (fetch_record match_field x entries) as [mid | e |]; simpl;
      [apply IH | reflexivity | reflexivity].
Qed.

Lemma collected_S first n :
  collected match_field source collection first (S n) =
  contribution match_field (source collection first)
  ++ collected match_field source collection (S first) n.
Proof. reflexivity. Qed.

Lemma fetch_pages_collects : forall fuel page entries st entries' st',
  fetch_pages source dest fuel collection match_field page entries st =
    (Returned entries', st') ->
  exists n,
    n < fuel /\
    st' = sent st (pages source collection page (S n)) /\
    entries' = entries ++ collected match_field source collection page n.
Proof.
  induction fuel as [| fuel IH]; intros page entries st entries' st' Hrun.
  - discriminate Hrun.
  - rewrite fetch_pages_round, fetch_page_app in Hrun. cbv zeta in Hrun.
    destruct (page_view match_field (source collection page)) as [[new |] | e |] eqn:Hview;
      cbn [and_then option_map] in Hrun; try discriminate Hrun.
    + apply IH in Hrun. destruct Hrun as (n & Hn & Hst & Hentries).
      exists (S n). split; [lia |]. split.
      * rewrite Hst, sent_sent, <- pages_S. reflexivity.
      * rewrite collected_S. unfold contribution at 1. rewrite Hview.
        rewrite Hentries, <- app_assoc. reflexivity.
    + injection Hrun as <- <-. exists 0. split; [lia |]. split; [reflexivity |].
      cbn. rewrite app_nil_r. reflexivity.
Qed.

(** Whatever the outcome, the requests of the loop are those for consecutive
    pages from the page it starts at. *)
Lemma fetch_pages_trace : forall fuel page entries st,
  exists k,
    k <= fuel /\
    snd (fetch_pages source dest fuel collection match_field page entries st) =
    sent st (pages source collection page k).
Proof.
  induction fuel as [| fuel IH]; intros page entries st.
  - exists 0. split; [lia |]. unfold sent, pages; cbn. rewrite app_nil_r.
    destruct st; reflexivity.
  - rewrite fetch_pages_round. cbv zeta.
    destruct (fetch_page match_field (source collection page) entries)
      as [[entries' |] | e |].
    + destruct (IH (S page) entries' (sent st (pages source collection page 1)))
        as (k & Hk & Hst).
      exists (S k). split; [lia |].
      rewrite Hst, sent_sent, <- pages_S. reflexivity.
    + exists 1. split; [lia | reflexivity].
    + exists 1. split; [lia | reflexivity].
    + exists 1. split; [lia | reflexivity].
Qed.

(** The loop does not look at the destination. *)
Lemma fetch_pages_ignores_destination dest' : forall fuel page entries st,
  fetch_pages source dest fuel collection match_field page entries st =
  fetch_pages source dest' fuel collection match_field page entries st.
Proof.
  induction fuel as [| fuel IH]; intros page entries st.
  - reflexivity.
  - rewrite !fetch_pages_round. cbv zeta.
    destruct (fetch_page match_field (source collection page) entries)
      as [[entries' |] | e |]; first [apply IH | reflexivity].
Qed.

(** While the pages carry data the loop goes on. *)
Lemma fetch_pages_goes_on : forall fuel page entries st,
  (forall k, page <= k ->
     exists new, page_view match_field (source collection k) = Returned (Some new)) ->
  fetch_pages source dest fuel collection match_field page entries st =
  (OutOfFuel, sent st (pages source collection page fuel)).
Proof.
  induction fuel as [| fuel IH]; intros page entries st Hdata.
  - unfold sent, pages; cbn. rewrite app_nil_r. destruct st; reflexivity.
  - rewrite fetch_pages_round, fetch_page_app. cbv zeta.
    destruct (Hdata page (le_n page)) as [new Hnew]. rewrite Hnew.
    cbn [and_then option_map].
    rewrite IH; [| intros k Hk; apply Hdata; lia].
    rewrite sent_sent, <- pages_S. reflexivity.
Qed.

(** A property of entries that each record keeps is kept by the fetch. *)
Variable P : dict -> Prop.
Hypothesis record_keeps :
  forall entry entries entries',
    Forall P entries ->
    fetch_record match_field entry entries = Returned entries' ->
    Forall P entries'.

Lemma fetch_records_keep items : forall entries entries',
  Forall P entries ->
  fetch_records match_field items entries = Returned entries' ->
  Forall P entries'.
Proof.
  induction items as [| entry items IH]; intros entries entries' Hall Hrun;
    simpl in Hrun.
  - injection Hrun as <-; exact Hall.
  - destruct (fetch_record match_field entry entries) as [mid | |] eqn:Hrec;
      try discriminate Hrun.
    cbn [and_then] in Hrun.
    eapply IH; [| exact Hrun]. eapply record_keeps; eassumption.
Qed.

Lemma fetch_page_keeps r entries entries' :
  Forall P entries ->
  fetch_page match_field r entries = Returned (Some entries') ->
  Forall P entries'.
Proof.
  intros Hall Hrun. unfold fetch_page in Hrun.
  destruct r as [s b | msg]; [| discriminate Hrun].
  destruct (raise_for_status _); try discriminate Hrun. cbn [and_then] in Hrun.
  destruct (res_json _) as [parsed | |]; try discriminate Hrun. cbn [and_then] in Hrun.
  destruct (get_data parsed) as [items_value | |]; try discriminate Hrun.
  cbn [and_then] in Hrun.
  destruct (if truthy items_value then first_item items_value else Returned VNone);
    try discriminate Hrun. cbn [and_then] in Hrun.
  destruct (negb (truthy items_value)); [discriminate Hrun |].
  destruct (iterate items_value) as [items | |]; try discriminate Hrun.
  cbn [and_then] in Hrun.
  destruct (fetch_records match_field items entries) as [out | |] eqn:Hrecs;
    try discriminate Hrun.
  cbn [and_then] in Hrun. injection Hrun as <-.
  eapply fetch_records_keep; eassumption.
Qed.

Lemma fetch_pages_keep : forall fuel page entries st entries' st',
  Forall P entries ->
  fetch_pages source dest fuel collection match_field page entries st =
    (Returned entries', st') ->
  Forall P entries'.
Proof.
  induction fuel as [| fuel IH]; intros page entries st entries' st' Hall Hrun.
  - discriminate Hrun.
  - rewrite fetch_pages_round in Hrun. cbv zeta in Hrun.
    destruct (fetch_page match_field (source collection page) entries)
      as [[mid |] | e |] eqn:Hpage; try discriminate Hrun.
    + eapply IH; [| exact Hrun]. eapply fetch_page_keeps; eassumption.
    + injection Hrun as <- _. exact Hall.
Qed.

End FetchOrder.

(** The fetcher returns the entries of its pages in page order: when the loop
    returns after the empty page n+1, the list is the concatenation of what
    pages 1 to n contribute, each page's entries in the order of its
    records. *)
Theorem fetch_entries_collects_pages_in_order :
  forall (source : string -> nat -> reply) (dest : list exchange -> request -> reply)
         (fuel : nat) (collection match_field : string)
         (st : state) (entries : list dict) (st' : state),
    fetch_entries source dest fuel collection match_field st = (Returned entries, st') ->
    exists n,
      n < fuel /\
      st' = sent st (pages source collection 1 (S n)) /\
      entries = collected match_field source collection 1 n.
Proof.
  intros source dest fuel collection match_field st entries st' Hrun.
  unfold fetch_entries in Hrun. apply fetch_pages_collects in Hrun.
  exact Hrun.
Qed.

Lemma fetch_entries_collects_pages_in_order_witness :
  exists n,
    n < 5 /\
    fetched [keynote; untitled; workshop] =
      sent initial (pages (one_page [keynote; untitled; workshop]) "agenda" 1 (S n)) /\
    [entry_A; entry_B] =
      collected "title" (one_page [keynote; untitled; workshop]) "agenda" 1 n.
Proof.
  apply (fetch_entries_collects_pages_in_order
           (one_page [keynote; untitled; workshop]) (destination no_match no_match)
           5 "agenda" "title" initial [entry_A; entry_B]
           (fetched [keynote; untitled; workshop])).
  reflexivity.
Defined.

(** The records of a page are handled left to right and independently: the
    entries of a page split in two are the entries of the first part followed
    by those of the second, added after what was there. *)
Theorem page_records_compose :
  forall (match_field : string) (xs ys : list value) (a b entries : list dict),
    fetch_records match_field xs [] = Returned a ->
    fetch_records match_field ys [] = Returned b ->
    fetch_records match_field (xs ++ ys) entries = Returned (entries ++ a ++ b).
Proof.
  intros match_field xs ys a b entries Ha Hb.
  rewrite fetch_records_split, (fetch_records_app match_field xs entries), Ha.
  cbn [and_then]. rewrite (fetch_records_app match_field ys (entries ++ a)), Hb.
  cbn [and_then]. rewrite app_assoc. reflexivity.
Qed.

Lemma page_records_compose_witness :
  fetch_records "title" ([keynote; untitled] ++ [workshop]) [entry_C] =
  Returned ([entry_C] ++ [entry_A] ++ [entry_B]).
Proof.
  apply (page_records_compose "title" [keynote; untitled] [workshop]
           [entry_A] [entry_B] [entry_C]); reflexivity.
Defined.

(** Whatever the source answers and however the loop ends, the requests of the
    fetch are those for pages 1, 2, ..., k in order, without gap or repeat,
    for some k within the rounds it is given; and the fetch is the same
    whatever the destination is: the destination is not contacted. *)
Theorem fetch_requests_consecutive_pages :
  forall (source : string -> nat -> reply)
         (dest dest' : list exchange -> request -> reply)
         (fuel : nat) (collection match_field : string) (st : state),
    (exists k,
        k <= fuel /\
        snd (fetch_entries source dest fuel collection match_field st) =
        sent st (pages source collection 1 k))
    /\
    fetch_entries source dest fuel collection match_field st =
    fetch_entries source dest' fuel collection match_field st.
Proof.
  intros source dest dest' fuel collection match_field st. split.
  - apply fetch_pages_trace.
  - apply fetch_pages_ignores_destination.
Qed.

(** The loop has no bound of its own: when every page carries data, it
    returns within no number of rounds, and has asked for one page per
    round. *)
Theorem fetch_never_returns_without_empty_page :
  forall (source : string -> nat -> reply) (dest : list exchange -> request -> reply)
         (collection match_field : string),
    (forall k, 1 <= k ->
       exists new, page_view match_field (source collection k) = Returned (Some new)) ->
    forall fuel st,
      fetch_entries source dest fuel collection match_field st =
      (OutOfFuel, sent st (pages source collection 1 fuel)).
Proof.
  intros source dest collection match_field Hdata fuel st.
  apply fetch_pages_goes_on. exact Hdata.
Qed.

Import Cases.

Lemma fetch_never_returns_without_empty_page_witness :
  fetch_entries endless_source (destination no_match no_match) 3 "agenda" "title" initial =
  (OutOfFuel, sent initial (pages endless_source "agenda" 1 3)).
Proof.
  apply (fetch_never_returns_without_empty_page
           endless_source (destination no_match no_match) "agenda" "title").
  intros k _. eexists. reflexivity.
Defined.

Lemma dict_lookup_set_other k k' v d :
  k <> k' -> Dict.lookup k (Dict.set k' v d) = Dict.lookup k d.
Proof.
  intros Hne.
  assert (Hkk : (k =? k')%string = false) by (apply String.eqb_neq; exact Hne).
  induction d as [| [k0 v0] d IH]; simpl.
  - rewrite Hkk; reflexivity.
  - destruct (k' =? k0)%string eqn:E; simpl.
    + apply String.eqb_eq in E; subst k0. rewrite Hkk; reflexivity.
    + destruct (k =? k0)%string; [reflexivity | exact IH].
Qed.

Lemma dict_mem_set_same k v d : Dict.mem k (Dict.set k v d) = true.
Proof.
  unfold Dict.mem. induction d as [| [k' v'] d IH]; simpl.
  - rewrite String.eqb_refl; reflexivity.
  - destruct (k =? k')%string eqn:E; simpl.
    + rewrite String.eqb_refl; reflexivity.
    + rewrite E; exact IH.
Qed.

Lemma dict_mem_set_other k k' v d :
  k <> k' -> Dict.mem k (Dict.set k' v d) = Dict.mem k d.
Proof. intros Hne. unfold Dict.mem. rewrite dict_lookup_set_other; auto. Qed.

(** What a record that enters the list has become. *)
Lemma fetch_record_result match_field e entries entries' :
  fetch_record match_field (VDict e) entries = Returned entries' ->
  (entries' = entries /\
   (is_dict (attributes_of e) && truthy (attributes_of e) = false \/
    truthy (match_value_of match_field (VDict e)) = false))
  \/
  (exists attrs id,
      attributes_of e = VDict attrs /\
      Dict.lookup "id" e = Some id /\
      truthy (match_value_of match_field (VDict e)) = true /\
      entries' = entries ++
        [Dict.set "match_field" (match_value_of match_field (VDict e))
           (Dict.set "id" id attrs)]).
Proof.
  intros Hrun. unfold fetch_record in Hrun. fold (attributes_of e) in Hrun.
  unfold match_value_of. fold (attributes_of e).
  destruct (attributes_of e) as [| b | n | x | s | items | attrs];
    try (injection Hrun as <-; left; split; [reflexivity | left; reflexivity]).
  cbn [is_dict andb].
  destruct (truthy (VDict attrs)) eqn:Hattrs; cbn [negb] in Hrun;
    [| injection Hrun as <-; left; split; [reflexivity | left; reflexivity]].
  unfold subscript in Hrun.
  destruct (Dict.lookup "id" e) as [id |] eqn:Hid; [| discriminate Hrun].
  cbn [and_then] in Hrun.
  replace (Dict.get "id" e) with id
    by (unfold Dict.get, Dict.get_default; rewrite Hid; reflexivity).
  destruct (truthy (Dict.get match_field (Dict.set "id" id attrs))) eqn:Hmv;
    cbn [negb] in Hrun; injection Hrun as <-.
  - right. exists attrs, id. repeat split; reflexivity.
  - left. split; [reflexivity | right; reflexivity].
Qed.

(** Every entry the fetcher returns has an ["id"], a truthy match value under
    the match field, and the same value under ["match_field"]. *)
Theorem fetched_entries_are_well_formed :
  forall (source : string -> nat -> reply) (dest : list exchange -> request -> reply)
         (fuel : nat) (collection match_field : string)
         (st : state) (entries : list dict) (st' : state),
    fetch_entries source dest fuel collection match_field st = (Returned entries, st') ->
    Forall (fun a => Dict.mem "id" a = true /\ has_match_value match_field a) entries.
Proof.
  intros source dest fuel collection match_field st entries st' Hrun.
  apply Forall_and.
  - refine (fetch_pages_keep source dest collection match_field
              (fun a => Dict.mem "id" a = true) _ fuel 1 [] st entries st'
              (Forall_nil _) Hrun).
    intros entry acc acc' Hacc Hrec.
    destruct entry as [| b | n | x | s | items | e]; try discriminate Hrec.
    apply fetch_record_result in Hrec.
    destruct Hrec as [[-> _] | (attrs & id & _ & _ & _ & ->)]; [exact Hacc |].
    apply Forall_app; split; [exact Hacc |]. constructor; [| constructor].
    rewrite dict_mem_set_other by discriminate. apply dict_mem_set_same.
  - apply (fetched_entries_have_match_value match_field source dest collection
             fuel 1 [] st entries st'); [constructor | exact Hrun].
Qed.

Lemma fetched_entries_are_well_formed_witness :
  Forall (fun a => Dict.mem "id" a = true /\ has_match_value "title" a)
         [entry_A; entry_C; entry_B].
Proof.
  apply (fetched_entries_are_well_formed
           (one_page [keynote; untitled; bare; workshop])
           (destination no_match no_match) 5 "agenda" "title" initial
           [entry_A; entry_C; entry_B]
           (fetched [keynote; untitled; bare; workshop])).
  reflexivity.
Defined.

(** The entry made of a record is its attribute mapping with two keys
    written: ["id"] holds the record's own id, also when the attributes had
    another, and ["match_field"] holds the match value; every other field is
    as the source sent it. *)
Theorem fetch_record_normalizes :
  forall (match_field : string) (e : dict) (entries entries' : list dict),
    fetch_record match_field (VDict e) entries = Returned entries' ->
    entries' <> entries ->
    exists attrs a,
      attributes_of e = VDict attrs /\
      entries' = entries ++ [a] /\
      Dict.get "id" a = Dict.get "id" e /\
      Dict.get "match_field" a = match_value_of match_field (VDict e) /\
      truthy (Dict.get "match_field" a) = true /\
      forall k, k <> "id" -> k <> "match_field" -> Dict.get k a = Dict.get k attrs.
Proof.
  intros match_field e entries entries' Hrun Hnew.
  apply fetch_record_result in Hrun.
  destruct Hrun as [[-> _] | (attrs & id & Hattrs & Hid & Hmv & ->)];
    [contradiction Hnew; reflexivity |].
  eexists attrs, _. split; [exact Hattrs |]. split; [reflexivity |].
  repeat split.
  - rewrite dict_get_set_other by discriminate. rewrite dict_get_set_same.
    unfold Dict.get, Dict.get_default. rewrite Hid. reflexivity.
  - apply dict_get_set_same.
  - rewrite dict_get_set_same. exact Hmv.
  - intros k Hk1 Hk2. rewrite !dict_get_set_other by assumption. reflexivity.
Qed.

Lemma fetch_record_normalizes_witness :
  exists attrs a,
    attributes_of [("id", VInt 7);
                   ("attributes", VDict [("id", VInt 70); ("title", VStr "N");
                                         ("agendaFormatName", VStr "Talk")])]
      = VDict attrs /\
    [entry_N] = [] ++ [a] /\
    Dict.get "id" a = VInt 7 /\
    Dict.get "match_field" a = VStr "N" /\
    truthy (Dict.get "match_field" a) = true /\
    forall k, k <> "id" -> k <> "match_field" -> Dict.get k a = Dict.get k attrs.
Proof.
  apply (fetch_record_normalizes "title"
           [("id", VInt 7);
            ("attributes", VDict [("id", VInt 70); ("title", VStr "N");
                                  ("agendaFormatName", VStr "Talk")])]
           [] [entry_N]).
  - reflexivity.
  - discriminate.
Defined.

Lemma fetch_records_raise match_field before bad after entries mid e :
  fetch_records match_field before entries = Returned mid ->
  fetch_record match_field bad mid = Raised e ->
  fetch_records match_field (before ++ bad :: after) entries = Raised e.
Proof.
  intros Hbefore Hbad. rewrite fetch_records_split, Hbefore. cbn [and_then].
  cbn [fetch_records]. rewrite Hbad. reflexivity.
Qed.

(** A record whose attribute mapping is usable but that has no ["id"] raises
    KeyError("id") at line 49, whatever its match field holds, and the page
    it is on raises with it: the records after it are not handled. *)
Theorem record_without_id_aborts_page :
  forall (match_field : string) (e : dict) (before after : list value)
         (entries mid : list dict),
    is_dict (attributes_of e) && truthy (attributes_of e) = true ->
    Dict.mem "id" e = false ->
    fetch_records match_field before entries = Returned mid ->
    fetch_record match_field (VDict e) mid = Raised (KeyError (VStr "id"))
    /\
    fetch_records match_field (before ++ VDict e :: after) entries =
      Raised (KeyError (VStr "id")).
Proof.
  intros match_field e before after entries mid Hattrs Hid Hbefore.
  assert (Hrec : fetch_record match_field (VDict e) mid = Raised (KeyError (VStr "id"))).
  { unfold fetch_record. unfold attributes_of in Hattrs.
    destruct (if Dict.mem "attributes" e then Dict.get "attributes" e else VDict e)
      as [| b | n | x | s | items | attrs]; try discriminate Hattrs.
    cbn [is_dict andb] in Hattrs. rewrite Hattrs. cbn [negb].
    unfold subscript. unfold Dict.mem in Hid.
    destruct (Dict.lookup "id" e); [discriminate Hid | reflexivity]. }
  split; [exact Hrec |].
  eapply fetch_records_raise; eassumption.
Qed.

Lemma record_without_id_aborts_page_witness :
  fetch_record "title" anonymous [entry_A] = Raised (KeyError (VStr "id"))
  /\
  fetch_records "title" ([keynote] ++ anonymous :: [workshop]) [] =
    Raised (KeyError (VStr "id")).
Proof.
  apply (record_without_id_aborts_page "title" [("title", VStr "Z")]
           [keynote] [workshop] [] [entry_A]); reflexivity.
Defined.

(** A record whose attribute mapping is empty or is not a mapping is skipped
    without an error before its [id] and its match field are read: the page
    gives the same result with the record as without it. *)
Theorem record_without_attributes_is_skipped :
  forall (match_field : string) (e : dict) (before after : list value)
         (entries : list dict),
    is_dict (attributes_of e) && truthy (attributes_of e) = false ->
    fetch_record match_field (VDict e) entries = Returned entries
    /\
    fetch_records match_field (before ++ VDict e :: after) entries =
    fetch_records match_field (before ++ after) entries.
Proof.
  intros match_field e before after entries Hattrs.
  assert (Hskip : forall acc, fetch_record match_field (VDict e) acc = Returned acc).
  { intros acc. unfold fetch_record. unfold attributes_of in Hattrs.
    destruct (if Dict.mem "attributes" e then Dict.get "attributes" e else VDict e)
      as [| b | n | x | s | items | attrs]; try reflexivity.
    cbn [is_dict andb] in Hattrs. rewrite Hattrs. reflexivity. }
  split; [apply Hskip |].
  rewrite !fetch_records_split.
  destruct (fetch_records match_field before entries) as [mid | err |];
    cbn [and_then]; try reflexivity.
  cbn [fetch_records]. rewrite Hskip. reflexivity.
Qed.

Lemma record_without_attributes_is_skipped_witness :
  (fetch_record "title" hollow [entry_A] = Returned [entry_A]
   /\
   fetch_records "title" ([keynote] ++ hollow :: [workshop]) [entry_A] =
   fetch_records "title" ([keynote] ++ [workshop]) [entry_A])
  /\
  (fetch_record "title" flat_null [entry_A] = Returned [entry_A]
   /\
   fetch_records "title" ([keynote] ++ flat_null :: [workshop]) [entry_A] =
   fetch_records "title" ([keynote] ++ [workshop]) [entry_A]).
Proof.
  split.
  - apply (record_without_attributes_is_skipped "title" [("attributes", VDict [])]
             [keynote] [workshop]); reflexivity.
  - apply (record_without_attributes_is_skipped "title"
             [("attributes", VNone); ("title", VStr "Y")]
             [keynote] [workshop]); reflexivity.
Defined.

(** An item of ["data"] that is not a mapping raises, and the page it is on
    raises with it: TypeError for null, a boolean or a number, on which
    ["attributes" in entry] is not defined (line 45); AttributeError for a
    string or a list, which have no [get] (lines 45 and 47). *)
Theorem non_mapping_item_aborts_page :
  forall (match_field : string) (item : value) (before after : list value)
         (entries mid : list dict),
    is_dict item = false ->
    fetch_records match_field before entries = Returned mid ->
    fetch_record match_field item mid =
      Raised (match item with
              | VStr _ | VList _ => AttributeError
              | _ => TypeError
              end)
    /\
    fetch_records match_field (before ++ item :: after) entries =
      Raised (match item with
              | VStr _ | VList _ => AttributeError
              | _ => TypeError
              end).
Proof.
  intros match_field item before after entries mid Hitem Hbefore.
  assert (Hrec : fetch_record match_field item mid =
                 Raised (match item with
                         | VStr _ | VList _ => AttributeError
                         | _ => TypeError
                         end))
    by (destruct item; try discriminate Hitem; reflexivity).
  split; [exact Hrec |]. eapply fetch_records_raise; eassumption.
Qed.

Lemma non_mapping_item_aborts_page_witness :
  (fetch_record "title" (VStr "oops") [entry_A] = Raised AttributeError
   /\
   fetch_records "title" ([keynote] ++ VStr "oops" :: [workshop]) [] =
     Raised AttributeError)
  /\
  (fetch_record "title" VNone [entry_A] = Raised TypeError
   /\
   fetch_records "title" ([keynote] ++ VNone :: [workshop]) [] = Raised TypeError).
Proof.
  split.
  - apply (non_mapping_item_aborts_page "title" (VStr "oops") [keynote] [workshop]
             [] [entry_A]); reflexivity.
  - apply (non_mapping_item_aborts_page "title" VNone [keynote] [workshop]
             [] [entry_A]); reflexivity.
Defined.

(** ** The run as a whole: what is sent and what is reported *)

Lemma lookups_app tr tr' : lookups (tr ++ tr') = lookups tr ++ lookups tr'.
Proof. apply flat_map_app. Qed.

Lemma lookups_pages source collection first n :
  lookups (pages source collection first n) = [].
Proof.
  unfold pages. revert first. induction n as [| n IH]; intros first; simpl.
  - reflexivity.
  - apply IH.
Qed.

Lemma writes_pages source collection first n :
  writes (pages source collection first n) = [].
Proof.
  unfold pages. revert first. induction n as [| n IH]; intros first; simpl.
  - reflexivity.
  - apply IH.
Qed.

Lemma lookups_cons_lookup collection match_field entry r tr :
  lookups ((lookup_request collection match_field entry, r) :: tr) =
  Dict.get match_field entry :: lookups tr.
Proof. reflexivity. Qed.

Lemma lookups_cons_write collection existing payload r tr :
  lookups ((write_request collection existing payload, r) :: tr) = lookups tr.
Proof. unfold write_request. destruct (truthy existing); reflexivity. Qed.

Lemma writes_cons_lookup collection match_field entry r tr :
  writes ((lookup_request collection match_field entry, r) :: tr) = writes tr.
Proof. reflexivity. Qed.

Lemma writes_cons_write collection existing payload r tr :
  writes ((write_request collection existing payload, r) :: tr) =
  (write_request collection existing payload, r) :: writes tr.
Proof. unfold write_request. destruct (truthy existing); reflexivity. Qed.

Section RunShape.

Variable source : string -> nat -> reply.
Variable dest : list exchange -> request -> reply.
Variable clock : nat -> string.
Variable collection match_field : string.

(** What a loop over the entries that returns has sent: requests to the
    destination only, one lookup per entry in the order of the entries, and
    one write per entry in a live run, none in a dry run. *)
Lemma migrate_entries_sent dry_run entries : forall report_rows st rows' st',
  migrate_entries source dest clock collection match_field dry_run
    entries report_rows st = (Returned rows', st') ->
  exists added,
    trace st' = trace st ++ added /\
    Forall (fun x => to_destination (fst x) = true) added /\
    lookups added = map (Dict.get match_field) entries /\
    length (writes added) = (if dry_run then 0 else length entries).
Proof.
  induction entries as [| entry rest IH]; intros report_rows st rows' st' Hrun.
  - injection Hrun as _ <-. exists []. rewrite app_nil_r.
    repeat split; [constructor | destruct dry_run; reflexivity].
  - rewrite migrate_entries_cons in Hrun.
    destruct (migrate_entry_cases source dest clock collection match_field
                dry_run entry report_rows st)
      as [(e & _ & H) | [(payload & e & _ & _ & H)
                        | (payload & existing & r & st2 & _ & _ & H & _ & _ & Hst)]];
      rewrite H in Hrun; try discriminate Hrun.
    apply IH in Hrun. destruct Hrun as (added & Htrace & Hdest & Hlook & Hwrites).
    destruct dry_run.
    + destruct Hst as [-> _].
      exists ((lookup_request collection match_field entry,
               dest (trace st) (lookup_request collection match_field entry)) :: added).
      unfold sent in Htrace; cbn [trace] in Htrace.
      rewrite Htrace, <- app_assoc. split; [reflexivity |].
      split; [constructor; [reflexivity | exact Hdest] |].
      split; [rewrite lookups_cons_lookup, Hlook; reflexivity
             | rewrite writes_cons_lookup; exact Hwrites].
    + cbv zeta in Hst. destruct Hst as [-> _].
      set (st1 := sent st [(lookup_request collection match_field entry,
                            dest (trace st) (lookup_request collection match_field entry))]) in *.
      exists ((lookup_request collection match_field entry,
               dest (trace st) (lookup_request collection match_field entry))
              :: (write_request collection existing payload,
                  dest (trace st1) (write_request collection existing payload))
              :: added).
      unfold sent in Htrace; cbn [trace] in Htrace.
      unfold st1, sent in Htrace; cbn [trace] in Htrace.
      rewrite Htrace, <- !app_assoc. split; [reflexivity |].
      assert (Hw : to_destination (write_request collection existing payload) = true)
        by (unfold write_request; destruct (truthy existing); reflexivity).
      split; [constructor; [reflexivity | constructor; [exact Hw | exact Hdest]] |].
      split.
      * rewrite lookups_cons_lookup, lookups_cons_write, Hlook. reflexivity.
      * rewrite writes_cons_lookup, writes_cons_write. cbn [length].
        rewrite Hwrites. reflexivity.
Qed.

(** The rows of a loop that returns keep the flag of the run, hold an error
    exactly when they are [failed], and carry the readings of the clock in
    order. *)
Lemma migrate_entry_consistent dry_run entry report_rows st rows' st' :
  migrate_entry source dest clock collection match_field dry_run
    entry report_rows st = (Returned rows', st') ->
  exists r,
    rows' = report_rows ++ [r] /\
    consistent_row dry_run r /\
    row_timestamp r = clock (length report_rows).
Proof.
  intros Hrun.
  destruct (migrate_entry_cases source dest clock collection match_field
              dry_run entry report_rows st)
    as [(e & _ & H) | [(payload & e & _ & _ & H)
                      | (payload & existing & r & st2 & _ & _ & H & _ & Hflag & Hst)]];
    rewrite H in Hrun; try discriminate Hrun.
  injection Hrun as <- _. exists r. split; [reflexivity |].
  assert (Hprosp : prospective existing <> failed)
    by (unfold prospective; destruct (truthy existing); discriminate).
  assert (Hdone : forall flag,
             consistent_row flag
               (row clock match_field entry (prospective existing) empty_text
                    flag report_rows)).
  { intros flag. split; [reflexivity |]. split; [reflexivity |].
    intros Hf. contradiction. }
  destruct dry_run.
  - destruct Hst as [_ ->]. split; [apply Hdone | reflexivity].
  - cbv zeta in Hst. destruct Hst as [_ ->].
    destruct (delivered _) as [[] | e |];
      (split; [| reflexivity]); try apply Hdone.
    split; [reflexivity |]. split.
    + intros Hf. contradiction Hf. reflexivity.
    + intros _. exists e. reflexivity.
Qed.

Lemma migrate_entries_consistent dry_run entries : forall report_rows st rows' st',
  Forall (consistent_row dry_run) report_rows ->
  map row_timestamp report_rows = map clock (seq 0 (length report_rows)) ->
  migrate_entries source dest clock collection match_field dry_run
    entries report_rows st = (Returned rows', st') ->
  Forall (consistent_row dry_run) rows' /\
  map row_timestamp rows' = map clock (seq 0 (length rows')).
Proof.
  induction entries as [| entry rest IH]; intros report_rows st rows' st' Hall Htime Hrun.
  - injection Hrun as <- _. split; assumption.
  - rewrite migrate_entries_cons in Hrun.
    destruct (migrate_entry source dest clock collection match_field dry_run
                entry report_rows st) as [[mid | e |] st1] eqn:Hround;
      try discriminate Hrun.
    apply migrate_entry_consistent in Hround.
    destruct Hround as (r & -> & Hr & Ht).
    eapply IH; [| | exact Hrun].
    + apply Forall_app; split; [exact Hall | constructor; [exact Hr | constructor]].
    + rewrite map_app, length_app, Nat.add_1_r, seq_S, map_app, Htime.
      cbn. rewrite Ht. reflexivity.
Qed.

End RunShape.

(** The report file is opened only after the loop over the entries has
    returned.  A run in which the loop raises, at whatever entry and whatever
    the exception (a missing payload field, any exception of a lookup), ends
    with that exception and writes no report file; and a run that returns has
    got through the fetch and through the loop, has sent nothing while
    writing, and has written exactly the rows of the loop. *)
Theorem report_is_written_after_the_loop :
  forall (source : string -> nat -> reply) (dest : list exchange -> request -> reply)
         (clock : nat -> string) (fuel : nat) (collection match_field : string)
         (dry_run : bool),
    (forall entries st1 e st2,
        fetch_entries source dest fuel collection match_field initial =
          (Returned entries, st1) ->
        migrate_entries source dest clock collection match_field dry_run entries [] st1 =
          (Raised e, st2) ->
        migrate_collection source dest clock fuel collection match_field dry_run initial =
          (Raised e, st2)
        /\ report_file st2 = None)
    /\
    (forall st,
        migrate_collection source dest clock fuel collection match_field dry_run initial =
          (Returned tt, st) ->
        exists entries st1 report_rows st2,
          fetch_entries source dest fuel collection match_field initial =
            (Returned entries, st1) /\
          migrate_entries source dest clock collection match_field dry_run entries [] st1 =
            (Returned report_rows, st2) /\
          trace st = trace st2 /\
          report_file st = Some report_rows).
Proof.
  intros source dest clock fuel collection match_field dry_run. split.
  - intros entries st1 e st2 Hfetch Hloop. split.
    + rewrite migrate_collection_eq, Hfetch, Hloop. reflexivity.
    + pose proof (migrate_entries_writes_no_report source dest clock collection
                    match_field dry_run entries [] st1) as Hm.
      rewrite Hloop in Hm. cbn [snd] in Hm. rewrite Hm.
      pose proof (fetch_entries_writes_no_report source dest collection match_field
                    fuel initial) as Hf.
      rewrite Hfetch in Hf. exact Hf.
  - intros st Hrun. rewrite migrate_collection_eq in Hrun.
    destruct (fetch_entries _ _ _ _ _ initial) as [[entries | e |] st1];
      try discriminate Hrun.
    destruct (migrate_entries _ _ _ _ _ _ _ _ st1) as [[rows | e |] st2] eqn:Hloop;
      try discriminate Hrun.
    injection Hrun as <-.
    exists entries, st1, rows, st2. repeat split. exact Hloop.
Qed.

Lemma report_is_written_after_the_loop_witness :
  (migrate_collection (one_page [keynote; bare]) (destination no_match (ok (VDict [])))
     clock 5 "agenda" "title" false initial =
     (Raised (KeyError (VStr "agendaFormatName")),
      sent (sent (fetched [keynote; bare]) [(lookup_A, no_match)])
           [(post_A, ok (VDict []))])
   /\ report_file (sent (sent (fetched [keynote; bare]) [(lookup_A, no_match)])
                        [(post_A, ok (VDict []))]) = None)
  /\
  (exists entries st1 report_rows st2,
      fetch_entries (one_page [keynote]) (destination no_match (ok (VDict [])))
        5 "agenda" "title" initial = (Returned entries, st1) /\
      migrate_entries (one_page [keynote]) (destination no_match (ok (VDict [])))
        clock "agenda" "title" false entries [] st1 = (Returned report_rows, st2) /\
      trace (snd (migrate_collection (one_page [keynote])
                    (destination no_match (ok (VDict [])))
                    clock 5 "agenda" "title" false initial)) = trace st2 /\
      report_file (snd (migrate_collection (one_page [keynote])
                          (destination no_match (ok (VDict [])))
                          clock 5 "agenda" "title" false initial)) = Some report_rows).
Proof.
  split.
  - apply (proj1 (report_is_written_after_the_loop
                    (one_page [keynote; bare]) (destination no_match (ok (VDict [])))
                    clock 5 "agenda" "title" false)
             [entry_A; entry_C] (fetched [keynote; bare]));
      reflexivity.
  - apply (proj2 (report_is_written_after_the_loop
                    (one_page [keynote]) (destination no_match (ok (VDict [])))
                    clock 5 "agenda" "title" false)).
    vm_compute. reflexivity.
Defined.

(** When the fetch raises, whatever the exception (an error status, a
    response that is not JSON, a call that fails, a malformed record), the
    run raises the same exception, writes no report, and has sent nothing to
    the destination: its trace is that of the pages asked for. *)
Theorem fetch_exception_leaves_destination_untouched :
  forall (source : string -> nat -> reply) (dest : list exchange -> request -> reply)
         (clock : nat -> string) (fuel : nat) (collection match_field : string)
         (dry_run : bool) (e : exn) (st1 : state),
    fetch_entries source dest fuel collection match_field initial = (Raised e, st1) ->
    migrate_collection source dest clock fuel collection match_field dry_run initial =
      (Raised e, st1)
    /\ report_file st1 = None
    /\ exists k, k <= fuel /\ trace st1 = pages source collection 1 k.
Proof.
  intros source dest clock fuel collection match_field dry_run e st1 Hfetch.
  split; [| split].
  - rewrite migrate_collection_eq, Hfetch. reflexivity.
  - pose proof (fetch_entries_writes_no_report source dest collection match_field
                  fuel initial) as Hf.
    rewrite Hfetch in Hf. exact Hf.
  - destruct (fetch_pages_trace source dest collection match_field fuel 1 [] initial)
      as (k & Hk & Hst).
    fold (fetch_entries source dest fuel collection match_field) in Hst.
    rewrite Hfetch in Hst. cbn [snd] in Hst.
    exists k. split; [exact Hk |]. rewrite Hst. reflexivity.
Qed.

Lemma fetch_exception_leaves_destination_untouched_witness :
  migrate_collection (one_page [keynote; VDict [("title", VStr "Z")]; workshop])
    (destination no_match (ok (VDict []))) clock 5 "agenda" "title" false initial =
    (Raised (KeyError (VStr "id")),
     sent initial (pages (one_page [keynote; VDict [("title", VStr "Z")]; workshop])
                         "agenda" 1 1))
  /\ report_file
       (sent initial (pages (one_page [keynote; VDict [("title", VStr "Z")]; workshop])
                            "agenda" 1 1)) = None
  /\ exists k,
       k <= 5 /\
       trace (sent initial (pages (one_page [keynote; VDict [("title", VStr "Z")]; workshop])
                                  "agenda" 1 1)) =
       pages (one_page [keynote; VDict [("title", VStr "Z")]; workshop]) "agenda" 1 k.
Proof.
  apply (fetch_exception_leaves_destination_untouched
           (one_page [keynote; VDict [("title", VStr "Z")]; workshop])
           (destination no_match (ok (VDict []))) clock 5 "agenda" "title" false).
  reflexivity.
Defined.

(** A run that returns has first asked for its pages and only then turned to
    the destination, where it has looked up the match value of each fetched
    entry once, in fetch order, and has sent one write per entry if live and
    none if dry. *)
Theorem completed_run_requests :
  forall (source : string -> nat -> reply) (dest : list exchange -> request -> reply)
         (clock : nat -> string) (fuel : nat) (collection match_field : string)
         (dry_run : bool) (entries : list dict) (st1 st : state),
    fetch_entries source dest fuel collection match_field initial =
      (Returned entries, st1) ->
    migrate_collection source dest clock fuel collection match_field dry_run initial =
      (Returned tt, st) ->
    (exists n added,
        trace st = pages source collection 1 n ++ added /\
        Forall (fun x => to_destination (fst x) = true) added)
    /\ lookups (trace st) = map (Dict.get match_field) entries
    /\ length (writes (trace st)) = (if dry_run then 0 else length entries).
Proof.
  intros source dest clock fuel collection match_field dry_run entries st1 st
         Hfetch Hrun.
  rewrite migrate_collection_eq, Hfetch in Hrun.
  destruct (migrate_entries _ _ _ _ _ _ _ _ st1) as [[rows | e |] st2] eqn:Hloop;
    try discriminate Hrun.
  injection Hrun as <-. cbn [trace].
  apply migrate_entries_sent in Hloop.
  destruct Hloop as (added & Htrace & Hdest & Hlook & Hwrites).
  destruct (fetch_pages_trace source dest collection match_field fuel 1 [] initial)
    as (k & _ & Hst).
  fold (fetch_entries source dest fuel collection match_field) in Hst.
  rewrite Hfetch in Hst. cbn [snd] in Hst.
  assert (Ht1 : trace st1 = pages source collection 1 k)
    by (rewrite Hst; reflexivity).
  rewrite Htrace, Ht1. split; [| split].
  - exists k, added. split; [reflexivity | exact Hdest].
  - rewrite lookups_app, lookups_pages. exact Hlook.
  - rewrite writes_app, writes_pages. exact Hwrites.
Qed.

Lemma completed_run_requests_witness :
  (exists n added,
      trace (snd (migrate_collection (one_page [keynote; workshop])
                    (destination no_match server_error)
                    clock 5 "agenda" "title" false initial)) =
      pages (one_page [keynote; workshop]) "agenda" 1 n ++ added /\
      Forall (fun x => to_destination (fst x) = true) added)
  /\ lookups (trace (snd (migrate_collection (one_page [keynote; workshop])
                            (destination no_match server_error)
                            clock 5 "agenda" "title" false initial))) =
     map (Dict.get "title") [entry_A; entry_B]
  /\ length (writes (trace (snd (migrate_collection (one_page [keynote; workshop])
                                   (destination no_match server_error)
                                   clock 5 "agenda" "title" false initial)))) =
     length [entry_A; entry_B].
Proof.
  eapply (completed_run_requests
            (one_page [keynote; workshop]) (destination no_match server_error)
            clock 5 "agenda" "title" false [entry_A; entry_B]);
    vm_compute; reflexivity.
Defined.



(** ** The executor: what the answers of the destination lead to *)

(** A write that is answered with a status that is not an error (any status
    outside 400 to 599) is recorded as done: the row has the prospective
    action and an empty error, and the trace has gained the lookup and this
    one write. *)
Theorem delivered_write_is_recorded :
  forall (source : string -> nat -> reply) (dest : list exchange -> request -> reply)
         (clock : nat -> string) (collection match_field : string)
         (entry : dict) (report_rows : list report_row) (st : state)
         (payload : dict) (existing : value) (st1 : state)
         (s : Z) (b : option value),
    sanitize_payload entry = Returned payload ->
    find_existing_entry source dest collection match_field
      (Dict.get match_field entry) st = (Returned existing, st1) ->
    dest (trace st1) (write_request collection existing payload) = Response s b ->
    error_status s = false ->
    migrate_entry source dest clock collection match_field false entry report_rows st =
      (Returned (report_rows ++
         [{| row_entry := Dict.get match_field entry;
             row_action := if truthy existing then updated else created;
             row_error := empty_text;
             row_timestamp := clock (length report_rows);
             row_dry_run := false |}]),
       sent st1 [(write_request collection existing payload, Response s b)]).
Proof.
  intros source dest clock collection match_field entry report_rows st
         payload existing st1 s b Hp Hf Hans Hs.
  pose proof (migrate_entry_live source dest clock collection match_field
                entry report_rows st payload existing st1 Hp Hf) as Hl.
  cbv zeta in Hl. rewrite Hans in Hl.
  unfold delivered, raise_for_status in Hl. cbn [status_code] in Hl.
  unfold error_status in Hs. rewrite Hs in Hl. exact Hl.
Qed.

Lemma delivered_write_is_recorded_witness :
  migrate_entry (one_page [keynote]) (destination no_match (ok (VDict [])))
    clock "agenda" "title" false entry_A [] initial =
  (Returned [report "A" created empty_text false],
   sent (sent initial [(lookup_A, no_match)]) [(post_A, ok (VDict []))]).
Proof.
  apply (delivered_write_is_recorded
           (one_page [keynote]) (destination no_match (ok (VDict [])))
           clock "agenda" "title" entry_A [] initial payload_A VNone
           (sent initial [(lookup_A, no_match)]) 200 (Some (VDict [])));
    reflexivity.
Defined.

(** A write that gets no response at all is caught like an error status: the
    row is [failed] with the message of the exception of the call, and the
    loop goes on to the next entry. *)
Theorem unreachable_write_is_recorded_as_failed :
  forall (source : string -> nat -> reply) (dest : list exchange -> request -> reply)
         (clock : nat -> string) (collection match_field : string)
         (entry : dict) (rest : list dict) (report_rows : list report_row)
         (st : state) (payload : dict) (existing : value) (st1 : state)
         (msg : string),
    sanitize_payload entry = Returned payload ->
    find_existing_entry source dest collection match_field
      (Dict.get match_field entry) st = (Returned existing, st1) ->
    dest (trace st1) (write_request collection existing payload) = Unreachable msg ->
    migrate_entries source dest clock collection match_field false
      (entry :: rest) report_rows st =
    migrate_entries source dest clock collection match_field false rest
      (report_rows ++
         [{| row_entry := Dict.get match_field entry;
             row_action := failed;
             row_error := str_of (RequestException msg);
             row_timestamp := clock (length report_rows);
             row_dry_run := false |}])
      (sent st1 [(write_request collection existing payload, Unreachable msg)]).
Proof.
  intros source dest clock collection match_field entry rest report_rows st
         payload existing st1 msg Hp Hf Hans.
  pose proof (migrate_entry_live source dest clock collection match_field
                entry report_rows st payload existing st1 Hp Hf) as Hl.
  cbv zeta in Hl. rewrite Hans in Hl. cbn [delivered] in Hl.
  rewrite migrate_entries_cons, Hl. reflexivity.
Qed.

Lemma unreachable_write_is_recorded_as_failed_witness :
  migrate_entries (one_page [keynote; workshop])
    (destination no_match (Unreachable "connection refused"))
    clock "agenda" "title" false [entry_A; entry_B] [] initial =
  migrate_entries (one_page [keynote; workshop])
    (destination no_match (Unreachable "connection refused"))
    clock "agenda" "title" false [entry_B]
    [report "A" failed (str_of (RequestException "connection refused")) false]
    (sent (sent initial [(lookup_A, no_match)])
          [(post_A, Unreachable "connection refused")]).
Proof.
  apply (unreachable_write_is_recorded_as_failed
           (one_page [keynote; workshop])
           (destination no_match (Unreachable "connection refused"))
           clock "agenda" "title" entry_A [entry_B] [] initial payload_A VNone
           (sent initial [(lookup_A, no_match)]) "connection refused");
    reflexivity.
Defined.

Lemma migrate_entries_app source dest clock collection match_field dry_run xs :
  forall ys report_rows st,
    migrate_entries source dest clock collection match_field dry_run
      (xs ++ ys) report_rows st =
    match migrate_entries source dest clock collection match_field dry_run
            xs report_rows st with
    | (Returned rows', st') =>
        migrate_entries source dest clock collection match_field dry_run ys rows' st'
    | other => other
    end.
Proof.
  induction xs as [| x xs IH]; intros ys report_rows st.
  - reflexivity.
  - cbn [app]. rewrite !migrate_entries_cons.
    destruct (migrate_entry source dest clock collection match_field dry_run
                x report_rows st) as [[rows' | e |] st1]; try reflexivity.
    apply IH.
Qed.

(** An exception of the lookup of a later entry, whatever its kind, ends the
    run and loses the report: the rows of the entries handled before it are
    not written, although their writes were sent. *)
Theorem lookup_exception_loses_report :
  forall (source : string -> nat -> reply) (dest : list exchange -> request -> reply)
         (clock : nat -> string) (fuel : nat) (collection match_field : string)
         (dry_run : bool) (before after : list dict) (entry payload : dict)
         (st1 st2 st3 : state) (rows : list report_row) (e : exn),
    fetch_entries source dest fuel collection match_field initial =
      (Returned (before ++ entry :: after), st1) ->
    migrate_entries source dest clock collection match_field dry_run before [] st1 =
      (Returned rows, st2) ->
    sanitize_payload entry = Returned payload ->
    find_existing_entry source dest collection match_field
      (Dict.get match_field entry) st2 = (Raised e, st3) ->
    migrate_collection source dest clock fuel collection match_field dry_run initial =
      (Raised e, st3)
    /\ report_file st3 = None
    /\ writes (trace st3) = writes (trace st2).
Proof.
  intros source dest clock fuel collection match_field dry_run before after
         entry payload st1 st2 st3 rows e Hfetch Hbefore Hp Hf.
  assert (Hloop : migrate_entries source dest clock collection match_field dry_run
                    (before ++ entry :: after) [] st1 = (Raised e, st3)).
  { rewrite migrate_entries_app, Hbefore, migrate_entries_cons.
    rewrite (migrate_entry_lookup_raises source dest clock collection match_field
               dry_run entry rows st2 payload e st3 Hp Hf). reflexivity. }
  split; [| split].
  - rewrite migrate_collection_eq, Hfetch, Hloop. reflexivity.
  - pose proof (migrate_entries_writes_no_report source dest clock collection
                  match_field dry_run (before ++ entry :: after) [] st1) as Hm.
    rewrite Hloop in Hm. cbn [snd] in Hm. rewrite Hm.
    pose proof (fetch_entries_writes_no_report source dest collection match_field
                  fuel initial) as Hfr.
    rewrite Hfetch in Hfr. exact Hfr.
  - rewrite find_existing_entry_eq in Hf. cbv zeta in Hf.
    injection Hf as _ <-. unfold sent; cbn [trace].
    rewrite writes_app. cbn. apply app_nil_r.
Qed.

Lemma lookup_exception_loses_report_witness :
  migrate_collection (one_page [keynote; workshop]) garbling_destination
    clock 5 "agenda" "title" false initial =
    (Raised JSONDecodeError,
     sent (sent (sent (fetched [keynote; workshop]) [(lookup_A, no_match)])
                [(post_A, ok (VDict []))])
          [(GET_dest "agenda" "title" (VStr "B"), Response 200 None)])
  /\ report_file
       (sent (sent (sent (fetched [keynote; workshop]) [(lookup_A, no_match)])
                   [(post_A, ok (VDict []))])
             [(GET_dest "agenda" "title" (VStr "B"), Response 200 None)]) = None
  /\ writes (trace
       (sent (sent (sent (fetched [keynote; workshop]) [(lookup_A, no_match)])
                   [(post_A, ok (VDict []))])
             [(GET_dest "agenda" "title" (VStr "B"), Response 200 None)])) =
     writes (trace (sent (sent (fetched [keynote; workshop]) [(lookup_A, no_match)])
                         [(post_A, ok (VDict []))])).
Proof.
  apply (lookup_exception_loses_report
           (one_page [keynote; workshop]) garbling_destination
           clock 5 "agenda" "title" false [entry_A] [] entry_B
           [("agendaFormatName", VStr "Workshop"); ("agendaFormatOrder", VInt 2)]
           (fetched [keynote; workshop])
           (sent (sent (fetched [keynote; workshop]) [(lookup_A, no_match)])
                 [(post_A, ok (VDict []))])
           _ [report "A" created empty_text false] JSONDecodeError);
    reflexivity.
Defined.

(** ** The matcher and the sanitizer *)

(** The lookup reads the first element of ["data"] and nothing after it: two
    answers with the same status and the same first element give the same
    result, whatever else they list. *)
Theorem first_match_wins :
  forall (source : string -> nat -> reply)
         (dest1 dest2 : list exchange -> request -> reply)
         (collection match_field : string) (match_value : value) (st : state)
         (s : Z) (p1 p2 : dict) (first : value) (others1 others2 : list value),
    dest1 (trace st) (GET_dest collection match_field match_value) =
      Response s (Some (VDict p1)) ->
    dest2 (trace st) (GET_dest collection match_field match_value) =
      Response s (Some (VDict p2)) ->
    Dict.get_default "data" (VList []) p1 = VList (first :: others1) ->
    Dict.get_default "data" (VList []) p2 = VList (first :: others2) ->
    fst (find_existing_entry source dest1 collection match_field match_value st) =
    fst (find_existing_entry source dest2 collection match_field match_value st).
Proof.
  intros source dest1 dest2 collection match_field match_value st s p1 p2
         first others1 others2 H1 H2 Hd1 Hd2.
  rewrite !find_existing_entry_eq. cbv zeta. cbn [fst]. rewrite H1, H2.
  unfold existing_of.
  destruct (raise_for_status _) as [[] | e |]; cbn [and_then]; try reflexivity.
  cbn [res_json body and_then]. unfold get_data. cbn [method_get and_then].
  rewrite Hd1, Hd2. reflexivity.
Qed.

Lemma first_match_wins_witness :
  fst (find_existing_entry (one_page [keynote]) (destination two_matches (ok (VDict [])))
         "agenda" "title" (VStr "A") initial) =
  fst (find_existing_entry (one_page [keynote]) (destination match_doc123 (ok (VDict [])))
         "agenda" "title" (VStr "A") initial).
Proof.
  eapply (first_match_wins (one_page [keynote])
            (destination two_matches (ok (VDict [])))
            (destination match_doc123 (ok (VDict [])))
            "agenda" "title" (VStr "A") initial 200);
    reflexivity.
Defined.

(** The lookup finds nothing when the answer has no ["data"], a falsy one
    (empty list, null), or one whose first element is not a mapping; the
    executor then takes the create branch, and a live round sends a POST. *)
Theorem lookup_without_match_creates :
  forall (source : string -> nat -> reply) (dest : list exchange -> request -> reply)
         (clock : nat -> string) (collection match_field : string)
         (entry : dict) (report_rows : list report_row) (st : state)
         (payload : dict) (s : Z) (parsed : dict),
    sanitize_payload entry = Returned payload ->
    dest (trace st) (lookup_request collection match_field entry) =
      Response s (Some (VDict parsed)) ->
    error_status s = false ->
    truthy (Dict.get_default "data" (VList []) parsed) = false
    \/ (exists x, first_item (Dict.get_default "data" (VList []) parsed) = Returned x
                  /\ is_dict x = false) ->
    let st1 := sent st [(lookup_request collection match_field entry,
                         Response s (Some (VDict parsed)))] in
    find_existing_entry source dest collection match_field
      (Dict.get match_field entry) st = (Returned VNone, st1)
    /\ exists r answer,
         migrate_entry source dest clock collection match_field false
           entry report_rows st =
         (Returned (report_rows ++ [r]),
          sent st1 [(POST_dest collection (VDict [("data", VDict payload)]), answer)]).
Proof.
  intros source dest clock collection match_field entry report_rows st
         payload s parsed Hp Hans Hs Hdata. cbv zeta.
  assert (Hex : existing_of (Response s (Some (VDict parsed))) = Returned VNone).
  { unfold existing_of, raise_for_status. cbn [status_code].
    unfold error_status in Hs. rewrite Hs. cbn [and_then res_json body].
    unfold get_data. cbn [method_get and_then].
    destruct Hdata as [Hfalsy | (x & Hfirst & Hx)].
    - rewrite Hfalsy. reflexivity.
    - destruct (truthy _); [| reflexivity].
      rewrite Hfirst. cbn [and_then]. rewrite Hx. reflexivity. }
  assert (Hf : find_existing_entry source dest collection match_field
                 (Dict.get match_field entry) st =
               (Returned VNone,
                sent st [(lookup_request collection match_field entry,
                          Response s (Some (VDict parsed)))])).
  { rewrite find_existing_entry_eq. cbv zeta.
    fold (lookup_request collection match_field entry). rewrite Hans, Hex.
    reflexivity. }
  split; [exact Hf |].
  pose proof (migrate_entry_live source dest clock collection match_field
                entry report_rows st payload _ _ Hp Hf) as Hl.
  cbv zeta in Hl. eexists; eexists. exact Hl.
Qed.

Lemma lookup_without_match_creates_witness :
  find_existing_entry (one_page [keynote])
    (destination (ok (VDict [("meta", VDict [])])) (ok (VDict [])))
    "agenda" "title" (VStr "A") initial =
    (Returned VNone,
     sent initial [(lookup_A, ok (VDict [("meta", VDict [])]))])
  /\ exists r answer,
       migrate_entry (one_page [keynote])
         (destination (ok (VDict [("meta", VDict [])])) (ok (VDict [])))
         clock "agenda" "title" false entry_A [] initial =
       (Returned ([] ++ [r]),
        sent (sent initial [(lookup_A, ok (VDict [("meta", VDict [])]))])
             [(post_A, answer)]).
Proof.
  apply (lookup_without_match_creates (one_page [keynote])
           (destination (ok (VDict [("meta", VDict [])])) (ok (VDict [])))
           clock "agenda" "title" entry_A [] initial payload_A 200
           [("meta", VDict [])]);
    try reflexivity.
  left. reflexivity.
Defined.

(** What the lookup returns is [None] or a dictionary with the one key
    ["documentId"], whose value is read from the ["attributes"] of the first
    element of ["data"]: neither the outer [id] nor any other field of the
    element is used. *)
Theorem lookup_returns_attributes_document_id :
  forall (source : string -> nat -> reply) (dest : list exchange -> request -> reply)
         (collection match_field : string) (match_value : value)
         (st : state) (existing : value) (st1 : state),
    find_existing_entry source dest collection match_field match_value st =
      (Returned existing, st1) ->
    existing = VNone
    \/ exists s parsed first attrs,
         dest (trace st) (GET_dest collection match_field match_value) =
           Response s (Some (VDict parsed)) /\
         first_item (Dict.get_default "data" (VList []) parsed) = Returned (VDict first) /\
         Dict.get_default "attributes" (VDict []) first = VDict attrs /\
         existing = VDict [("documentId", Dict.get "documentId" attrs)].
Proof.
  intros source dest collection match_field match_value st existing st1 Hf.
  rewrite find_existing_entry_eq in Hf. cbv zeta in Hf. injection Hf as Hex _.
  destruct (dest (trace st) (GET_dest collection match_field match_value))
    as [s b | msg]; [| discriminate Hex].
  unfold existing_of in Hex.
  destruct (raise_for_status _); cbn [and_then] in Hex; try discriminate Hex.
  destruct b as [parsed |]; cbn [res_json body and_then] in Hex;
    [| discriminate Hex].
  destruct parsed as [| ? | ? | ? | ? | ? | parsed];
    cbn [get_data method_get and_then] in Hex; try discriminate Hex.
  destruct (truthy _); [| injection Hex as <-; left; reflexivity].
  destruct (first_item _) as [first | |] eqn:Hfirst; cbn [and_then] in Hex;
    try discriminate Hex.
  destruct first as [| ? | ? | ? | ? | ? | first]; cbn [is_dict] in Hex;
    try (injection Hex as <-; left; reflexivity).
  cbn [method_get and_then] in Hex.
  destruct (Dict.get_default "attributes" (VDict []) first)
    as [| ? | ? | ? | ? | ? | attrs] eqn:Hattrs;
    cbn [method_get and_then] in Hex; try discriminate Hex.
  injection Hex as <-. right. exists s, parsed, first, attrs.
  repeat split; try assumption; reflexivity.
Qed.

Lemma lookup_returns_attributes_document_id_witness :
  VDict [("documentId", VNone)] = VNone
  \/ exists s parsed first attrs,
       destination match_without_document_id (ok (VDict [])) (trace initial)
         (GET_dest "agenda" "title" (VStr "A")) = Response s (Some (VDict parsed)) /\
       first_item (Dict.get_default "data" (VList []) parsed) = Returned (VDict first) /\
       Dict.get_default "attributes" (VDict []) first = VDict attrs /\
       VDict [("documentId", VNone)] = VDict [("documentId", Dict.get "documentId" attrs)].
Proof.
  eapply (lookup_returns_attributes_document_id (one_page [keynote])
            (destination match_without_document_id (ok (VDict [])))
            "agenda" "title" (VStr "A") initial).
  vm_compute. reflexivity.
Defined.

(** A lookup answer, or a source page, whose ["data"] is a non-empty object
    instead of a list raises KeyError(0) at [data[0]]: the fetch at its debug
    print (line 41), the lookup at its test (line 79). *)
Theorem data_object_raises_key_error :
  forall (source : string -> nat -> reply) (dest : list exchange -> request -> reply)
         (collection match_field : string) (s : Z) (parsed : dict)
         (kv : string * value) (object : dict),
    error_status s = false ->
    Dict.lookup "data" parsed = Some (VDict (kv :: object)) ->
    (forall fuel st,
        source collection 1 = Response s (Some (VDict parsed)) ->
        fetch_entries source dest (S fuel) collection match_field st =
        (Raised (KeyError (VInt 0)), sent st (pages source collection 1 1)))
    /\
    (forall match_value st,
        dest (trace st) (GET_dest collection match_field match_value) =
          Response s (Some (VDict parsed)) ->
        find_existing_entry source dest collection match_field match_value st =
        (Raised (KeyError (VInt 0)),
         sent st [(GET_dest collection match_field match_value,
                   Response s (Some (VDict parsed)))])).
Proof.
  intros source dest collection match_field s parsed kv object Hs Hdata.
  assert (Hget : get_data (VDict parsed) = Returned (VDict (kv :: object))).
  { unfold get_data, method_get, Dict.get_default. rewrite Hdata. reflexivity. }
  unfold error_status in Hs.
  split.
  - intros fuel st Hans. unfold fetch_entries. rewrite fetch_pages_round. cbv zeta.
    rewrite Hans. unfold fetch_page, raise_for_status. cbn [status_code].
    rewrite Hs. cbn [and_then res_json body]. rewrite Hget. reflexivity.
  - intros match_value st Hans. rewrite find_existing_entry_eq. cbv zeta.
    rewrite Hans. unfold existing_of, raise_for_status. cbn [status_code].
    rewrite Hs. cbn [and_then res_json body]. rewrite Hget. reflexivity.
Qed.

Lemma data_object_raises_key_error_witness :
  fetch_entries (fun _ _ => single_type) (destination single_type (ok (VDict [])))
    3 "agenda" "title" initial =
    (Raised (KeyError (VInt 0)),
     sent initial (pages (fun _ _ => single_type) "agenda" 1 1))
  /\
  find_existing_entry (fun _ _ => single_type) (destination single_type (ok (VDict [])))
    "agenda" "title" (VStr "A") initial =
    (Raised (KeyError (VInt 0)), sent initial [(lookup_A, single_type)]).
Proof.
  destruct (data_object_raises_key_error
              (fun _ _ => single_type) (destination single_type (ok (VDict [])))
              "agenda" "title" 200
              [("data", VDict [("id", VInt 1); ("title", VStr "A")])]
              ("id", VInt 1) [("title", VStr "A")] eq_refl eq_refl)
    as [Hfetch Hlookup].
  split; [apply (Hfetch 2 initial) | apply (Hlookup (VStr "A") initial)];
    reflexivity.
Defined.

(** The payload is made of the two fields and of nothing else: writing any
    other key of the entry, as the fetcher does with ["id"] and
    ["match_field"], changes neither the payload nor the exception. *)
Theorem sanitize_payload_ignores_other_fields :
  forall (entry : dict) (k : string) (v : value),
    k <> "agendaFormatName" ->
    k <> "agendaFormatOrder" ->
    sanitize_payload (Dict.set k v entry) = sanitize_payload entry
    /\ forall payload,
         sanitize_payload entry = Returned payload ->
         payload = [("agendaFormatName", Dict.get "agendaFormatName" entry);
                    ("agendaFormatOrder", Dict.get "agendaFormatOrder" entry)].
Proof.
  intros entry k v Hname Horder. split.
  - unfold sanitize_payload, subscript.
    rewrite !dict_lookup_set_other by (intros Heq; symmetry in Heq; contradiction).
    reflexivity.
  - intros payload. unfold sanitize_payload, subscript, Dict.get, Dict.get_default.
    destruct (Dict.lookup "agendaFormatName" entry); cbn [and_then]; [| discriminate].
    destruct (Dict.lookup "agendaFormatOrder" entry); cbn [and_then]; [| discriminate].
    intros [= <-]. reflexivity.
Qed.

Lemma sanitize_payload_ignores_other_fields_witness :
  sanitize_payload (Dict.set "match_field" (VStr "A") entry_A) = sanitize_payload entry_A
  /\ forall payload,
       sanitize_payload entry_A = Returned payload ->
       payload = [("agendaFormatName", Dict.get "agendaFormatName" entry_A);
                  ("agendaFormatOrder", Dict.get "agendaFormatOrder" entry_A)].
Proof.
  apply (sanitize_payload_ignores_other_fields entry_A "match_field" (VStr "A"));
    discriminate.
Defined.

(** ** A dry run foresees the live run *)

Section Foresight.

Variable source : string -> nat -> reply.
Variable dest : list exchange -> request -> reply.
Variable clock : nat -> string.
Variable collection match_field : string.
Hypothesis lookups_are_stable : stable_lookups dest.

Lemma migrate_entry_foreseen entry rows_d rows_l st_d st_l :
  (exists e,
      fst (migrate_entry source dest clock collection match_field true
             entry rows_d st_d) = Raised e /\
      fst (migrate_entry source dest clock collection match_field false
             entry rows_l st_l) = Raised e)
  \/
  (exists d l,
      fst (migrate_entry source dest clock collection match_field true
             entry rows_d st_d) = Returned (rows_d ++ [d]) /\
      fst (migrate_entry source dest clock collection match_field false
             entry rows_l st_l) = Returned (rows_l ++ [l]) /\
      foreseen d l).
Proof.
  destruct (sanitize_payload entry) as [payload | e |] eqn:Hp.
  - pose proof (find_existing_entry_eq source dest collection match_field
                  (Dict.get match_field entry) st_d) as Hd.
    pose proof (find_existing_entry_eq source dest collection match_field
                  (Dict.get match_field entry) st_l) as Hl.
    cbv zeta in Hd, Hl.
    rewrite (lookups_are_stable (trace st_l) (trace st_d)) in Hl.
    destruct (existing_of (dest (trace st_d)
                (GET_dest collection match_field (Dict.get match_field entry))))
      as [existing | e |] eqn:Hex.
    + right.
      rewrite (migrate_entry_dry_run source dest clock collection match_field
                 entry rows_d st_d payload existing _ Hp Hd).
      pose proof (migrate_entry_live source dest clock collection match_field
                    entry rows_l st_l payload existing _ Hp Hl) as Hlive.
      cbv zeta in Hlive. rewrite Hlive. cbn [fst].
      eexists; eexists. split; [reflexivity |]. split; [reflexivity |].
      unfold foreseen. destruct (delivered _); cbn; auto.
    + left. exists e.
      rewrite (migrate_entry_lookup_raises source dest clock collection match_field
                 true entry rows_d st_d payload e _ Hp Hd).
      rewrite (migrate_entry_lookup_raises source dest clock collection match_field
                 false entry rows_l st_l payload e _ Hp Hl).
      split; reflexivity.
    + exfalso. eapply existing_of_no_timeout; exact Hex.
  - left. exists e.
    rewrite !(migrate_entry_sanitize_raises source dest clock collection match_field
                _ entry _ _ e Hp).
    split; reflexivity.
  - exfalso. eapply sanitize_payload_no_timeout; exact Hp.
Qed.

Lemma migrate_entries_foreseen entries : forall rows_d rows_l st_d st_l,
  Forall2 foreseen rows_d rows_l ->
  (exists e,
      fst (migrate_entries source dest clock collection match_field true
             entries rows_d st_d) = Raised e /\
      fst (migrate_entries source dest clock collection match_field false
             entries rows_l st_l) = Raised e)
  \/
  (exists report_d report_l,
      fst (migrate_entries source dest clock collection match_field true
             entries rows_d st_d) = Returned report_d /\
      fst (migrate_entries source dest clock collection match_field false
             entries rows_l st_l) = Returned report_l /\
      Forall2 foreseen report_d report_l).
Proof.
  induction entries as [| entry rest IH]; intros rows_d rows_l st_d st_l Hrows.
  - right. exists rows_d, rows_l. repeat split. exact Hrows.
  - rewrite !migrate_entries_cons.
    destruct (migrate_entry_foreseen entry rows_d rows_l st_d st_l)
      as [(e & Hd & Hl) | (d & l & Hd & Hl & Hdl)].
    + left. exists e.
      destruct (migrate_entry _ _ _ _ _ true entry rows_d st_d) as [od sd].
      destruct (migrate_entry _ _ _ _ _ false entry rows_l st_l) as [ol sl].
      cbn [fst] in Hd, Hl. subst od ol. split; reflexivity.
    + destruct (migrate_entry _ _ _ _ _ true entry rows_d st_d) as [od sd].
      destruct (migrate_entry _ _ _ _ _ false entry rows_l st_l) as [ol sl].
      cbn [fst] in Hd, Hl. subst od ol.
      apply IH. apply Forall2_app; [exact Hrows | constructor; [exact Hdl | constructor]].
Qed.

End Foresight.



(** ** Empty collections and pages without entries *)

(** A source whose first page has no ["data"], or a falsy one, is an empty
    collection: the run asks for that one page, contacts the destination not
    at all, and writes a report without rows. *)
Theorem empty_source_gives_empty_report :
  forall (source : string -> nat -> reply) (dest : list exchange -> request -> reply)
         (clock : nat -> string) (fuel : nat) (collection match_field : string)
         (dry_run : bool) (s : Z) (parsed : dict),
    source collection 1 = Response s (Some (VDict parsed)) ->
    error_status s = false ->
    truthy (Dict.get_default "data" (VList []) parsed) = false ->
    migrate_collection source dest clock (S fuel) collection match_field dry_run initial =
    (Returned tt,
     {| trace := [(GET_source collection 1, Response s (Some (VDict parsed)))];
        report_file := Some [] |}).
Proof.
  intros source dest clock fuel collection match_field dry_run s parsed Hans Hs Hdata.
  rewrite migrate_collection_eq. unfold fetch_entries.
  rewrite fetch_pages_round, fetch_page_app. cbv zeta.
  rewrite Hans, (page_view_empty match_field s parsed Hs Hdata).
  cbn [and_then option_map]. unfold pages; cbn [seq map]. rewrite Hans.
  reflexivity.
Qed.

Lemma empty_source_gives_empty_report_witness :
  migrate_collection (one_page []) (destination no_match (ok (VDict [])))
    clock 3 "agenda" "title" false initial =
  (Returned tt,
   {| trace := [(GET_source "agenda" 1, data [])]; report_file := Some [] |}).
Proof.
  apply (empty_source_gives_empty_report (one_page [])
           (destination no_match (ok (VDict []))) clock 2 "agenda" "title" false
           200 [("data", VList [])]);
    reflexivity.
Defined.

Lemma fetch_records_all_skipped match_field items : forall entries,
  Forall (fun item => is_record item = true /\
                      truthy (match_value_of match_field item) = false) items ->
  fetch_records match_field items entries = Returned entries.
Proof.
  induction items as [| item items IH]; intros entries Hall.
  - reflexivity.
  - inversion Hall as [| ? ? [Hrec Hblank] Hrest]; subst.
    cbn [fetch_records].
    rewrite (fetch_record_skips match_field item entries Hblank Hrec).
    cbn [and_then]. apply IH; exact Hrest.
Qed.

(** A page whose records are all skipped is not an empty page: it adds no
    entry, and the loop goes on to ask for the next page. *)
Theorem page_of_skipped_records_goes_on :
  forall (source : string -> nat -> reply) (dest : list exchange -> request -> reply)
         (fuel : nat) (collection match_field : string)
         (page : nat) (entries : list dict) (st : state)
         (s : Z) (parsed : dict) (item : value) (items : list value),
    source collection page = Response s (Some (VDict parsed)) ->
    error_status s = false ->
    Dict.get_default "data" (VList []) parsed = VList (item :: items) ->
    Forall (fun x => is_record x = true /\
                     truthy (match_value_of match_field x) = false) (item :: items) ->
    fetch_pages source dest (S fuel) collection match_field page entries st =
    fetch_pages source dest fuel collection match_field (S page) entries
      (sent st [(GET_source collection page, Response s (Some (VDict parsed)))]).
Proof.
  intros source dest fuel collection match_field page entries st s parsed
         item items Hans Hs Hdata Hall.
  rewrite fetch_pages_round. cbv zeta. unfold pages; cbn [seq map].
  rewrite Hans. unfold fetch_page, raise_for_status. cbn [status_code].
  unfold error_status in Hs. rewrite Hs. cbn [and_then res_json body].
  unfold get_data. cbn [method_get and_then]. rewrite Hdata.
  cbn [truthy first_item and_then negb iterate].
  rewrite (fetch_records_all_skipped match_field (item :: items) entries Hall).
  reflexivity.
Qed.

Lemma page_of_skipped_records_goes_on_witness :
  fetch_pages (one_page [untitled]) (destination no_match no_match)
    3 "agenda" "title" 1 [] initial =
  fetch_pages (one_page [untitled]) (destination no_match no_match)
    2 "agenda" "title" 2 []
    (sent initial [(GET_source "agenda" 1, data [untitled])]).
Proof.
  apply (page_of_skipped_records_goes_on (one_page [untitled])
           (destination no_match no_match) 2 "agenda" "title" 1 [] initial
           200 [("data", VList [untitled])] untitled []);
    try reflexivity.
  constructor; [split; reflexivity | constructor].
Defined.
